(** * Steganography toolkit: payload pipeline and wavelet/QIM image codec

    A shallow embedding of [stegano_toolkit/common_crypto.py],
    [stegano_toolkit/image_stego.py], [stegano_toolkit/audio_stego.py],
    [stegano_toolkit/video_stego.py], [stegano_toolkit/document_stego.py] and
    [stegano_toolkit/cli.py].

    Python byte strings are lists of bytes, Python exceptions are an explicit
    [outcome] type, [os.urandom] is a read of an entropy tape threaded through
    the computation, and the third-party libraries the toolkit calls
    (cryptography, reedsolo, gzip, Pillow, PyWavelets, NumPy, pydub, pikepdf,
    python-docx) are interfaces whose functions the toolkit code is written
    against. *)

From Stdlib Require Import ZArith QArith Qround Qabs Lia Lqa.
From Stdlib Require Import Strings.Byte Strings.String Strings.Ascii.
From Stdlib Require Floats.PrimFloat Floats.SpecFloat Floats.FloatOps.
From stdpp Require Import gmap strings list pretty.

Local Open Scope string_scope.
Local Open Scope list_scope.
Local Open Scope nat_scope.

(** ** Byte strings *)

Definition bytes := list byte.

#[global] Instance byte_eq_decision : EqDecision byte := Byte.byte_eq_dec.

(** The literal [b"..."]. *)
Definition b (s : string) : bytes := String.list_byte_of_string s.

Definition byte_of_nat (n : nat) : byte :=
  default x00 (Byte.of_nat (n mod 256)).

Definition byte_to_Z (x : byte) : Z := Z.of_N (Byte.to_N x).

(** ** Exceptions and outcomes *)

Inductive exn : Type :=
| ValueError (msg : string)
| TypeError (msg : string)
| ReedSolomonError (msg : string)
| InvalidTag
| InvalidSignature
| BadGzipFile (msg : string)
| ZeroDivisionError
| CouldntDecodeError (msg : string)
| FileNotFoundError (path : string).

Inductive outcome (A : Type) : Type :=
| Return (a : A)
| Raise (e : exn).

Arguments Return {A} a.
Arguments Raise {A} e.

#[global] Instance outcome_ret : MRet outcome := λ A a, Return a.
#[global] Instance outcome_bind : MBind outcome := λ A B f m,
  match m with
  | Return a => f a
  | Raise e => Raise e
  end.

(** [try: body except <class>: handler]; [catches] is the class test of the
    [except] clause. *)
Definition try_except {A} (body : outcome A) (catches : exn → bool)
    (handler : exn → outcome A) : outcome A :=
  match body with
  | Return a => Return a
  | Raise e => if catches e then handler e else Raise e
  end.

(** [except Exception]: every exception of the model. *)
Definition any_Exception (e : exn) : bool := true.

(** [except reedsolo.ReedSolomonError]. *)
Definition is_ReedSolomonError (e : exn) : bool :=
  match e with
  | ReedSolomonError _ => true
  | _ => false
  end.

(** ** Randomness

    [os.urandom n] reads the next [n] bytes of the operating system's entropy;
    the tape is the sequence of bytes it will deliver and the cursor the number
    already delivered. The key generators of the cryptography library have a
    generator of their own; a generated key is modelled as 32 bytes of the
    same tape, so that what is proved of generated keys is proved for every
    tape and says nothing of positions on it. *)

Record entropy := Entropy { tape : nat → byte; cursor : nat }.

(** Computations that may raise and that thread a state [S]: the entropy tape
    for code that calls [os.urandom], the temporary directory for code that
    writes files. *)
Definition St (S A : Type) : Type := S → outcome A * S.

Definition st_ret {S A} (a : A) : St S A := λ s, (Return a, s).

Definition st_bind {S A B} (m : St S A) (k : A → St S B) : St S B := λ s,
  match m s with
  | (Return a, s') => k a s'
  | (Raise x, s') => (Raise x, s')
  end.

Definition lift {S A} (o : outcome A) : St S A := λ s, (o, s).

Notation "x <~ m ;; k" := (st_bind m (λ x, k))
  (at level 100, m at next level, right associativity).

Definition Py (A : Type) : Type := St entropy A.

Definition py_ret {A} (a : A) : Py A := st_ret a.

Definition urandom (n : nat) : Py bytes := λ e,
  (Return (map (tape e) (seq (cursor e) n)), Entropy (tape e) (cursor e + n)).

(** ** The libraries behind [common_crypto.py]

    Key objects are identified with their raw 32-byte encodings
    ([Encoding.Raw]); [AESGCM k] is the cipher object built from [k]; the
    associated data is [None] at every call site and is left out. *)

Class CryptoLib := {
  gzip_compress : bytes → bytes;
  gzip_decompress : bytes → outcome bytes;
  AESGCM : bytes → outcome bytes;
  AESGCM_encrypt : bytes → bytes → bytes → outcome bytes;
  AESGCM_decrypt : bytes → bytes → bytes → outcome bytes;
  RSCodec_encode : nat → bytes → bytes;
  RSCodec_decode : nat → bytes → outcome bytes;
  X25519PublicKey_from_public_bytes : bytes → outcome bytes;
  X25519PrivateKey_from_private_bytes : bytes → outcome bytes;
  X25519_public_key : bytes → bytes;
  X25519_exchange : bytes → bytes → outcome bytes;
  Ed25519PublicKey_from_public_bytes : bytes → outcome bytes;
  Ed25519PrivateKey_from_private_bytes : bytes → outcome bytes;
  Ed25519_public_key : bytes → bytes;
  Ed25519_sign : bytes → bytes → bytes;
  Ed25519_verify : bytes → bytes → bytes → outcome unit;
  HKDF_SHA256_derive : nat → option bytes → bytes → bytes → bytes
}.

(** The functional-correctness laws of those libraries that the round-trip
    properties rest on. *)
Class CryptoLaws (L : CryptoLib) : Prop := {
  x25519_public_length : ∀ priv,
    length priv = 32 → length (X25519_public_key priv) = 32;
  x25519_from_public_ok : ∀ pub,
    length pub = 32 → X25519PublicKey_from_public_bytes pub = Return pub;
  x25519_from_private_ok : ∀ priv,
    length priv = 32 → X25519PrivateKey_from_private_bytes priv = Return priv;
  x25519_agreement : ∀ a1 a2,
    length a1 = 32 → length a2 = 32 →
    ∃ s, X25519_exchange a1 (X25519_public_key a2) = Return s
         ∧ X25519_exchange a2 (X25519_public_key a1) = Return s;
  hkdf_length : ∀ n salt info ikm,
    length (HKDF_SHA256_derive n salt info ikm) = n;
  aesgcm_key_ok : ∀ k, length k = 32 → AESGCM k = Return k;
  aesgcm_encrypt_ok : ∀ k n pt,
    length k = 32 → length n = 12 → ∃ ct, AESGCM_encrypt k n pt = Return ct;
  aesgcm_roundtrip : ∀ k n pt ct,
    AESGCM_encrypt k n pt = Return ct → AESGCM_decrypt k n ct = Return pt;
  rs_roundtrip : ∀ nsym data,
    RSCodec_decode nsym (RSCodec_encode nsym data) = Return data;
  gzip_roundtrip : ∀ data, gzip_decompress (gzip_compress data) = Return data;
  ed25519_from_public_ok : ∀ pub,
    length pub = 32 → Ed25519PublicKey_from_public_bytes pub = Return pub;
  ed25519_from_private_ok : ∀ priv,
    length priv = 32 → Ed25519PrivateKey_from_private_bytes priv = Return priv;
  ed25519_public_length : ∀ priv,
    length priv = 32 → length (Ed25519_public_key priv) = 32;
  ed25519_sign_length : ∀ priv data,
    length priv = 32 → length (Ed25519_sign priv data) = 64;
  ed25519_sign_verify : ∀ priv data,
    length priv = 32 →
    Ed25519_verify (Ed25519_public_key priv) (Ed25519_sign priv data) data
    = Return ()
}.

(** [t] is [s] with the byte at one position replaced by another byte. *)
Definition single_byte_mutation (s t : bytes) : Prop :=
  ∃ i x y, s !! i = Some x ∧ x ≠ y ∧ t = <[i := y]> s.

(** Ed25519 binds a signature to the data and to its own bytes: a signature
    made for [data] verifies neither over [data] with one byte replaced nor
    after one of its own bytes has been replaced. This is what unforgeability
    gives on these inputs; it holds of the real primitive unless two SHA-512
    digests happen to agree modulo the group order, and is taken here
    without that exception. *)
Class Ed25519Binding (L : CryptoLib) : Prop := {
  ed25519_binds_data : ∀ priv data data',
    length priv = 32 → single_byte_mutation data data' →
    Ed25519_verify (Ed25519_public_key priv) (Ed25519_sign priv data) data'
    = Raise InvalidSignature;
  ed25519_binds_signature : ∀ priv data signature',
    length priv = 32 →
    single_byte_mutation (Ed25519_sign priv data) signature' →
    Ed25519_verify (Ed25519_public_key priv) signature' data
    = Raise InvalidSignature
}.

(** ** Constants *)

Definition HEADER_SIZE : nat := 16.
Definition RS_REDUNDANCY : nat := 32.

(** ** Python values held in dictionaries *)

Inductive pyval : Type :=
| PInt (n : Z)
| PFloat (q : Q)
| PBool (v : bool)
| PBytes (s : bytes).

(** ** [KeyManager] *)

Module KeyManager.
Section with_lib.
Context {L : CryptoLib}.

Definition X25519PrivateKey_generate : Py bytes := urandom 32.
Definition Ed25519PrivateKey_generate : Py bytes := urandom 32.

Definition generate_keypair : Py (bytes * bytes) :=
  private_key <~ X25519PrivateKey_generate;;
  let public_key := X25519_public_key private_key in
  py_ret (private_key, public_key).

Definition generate_signing_keypair : Py (bytes * bytes) :=
  private_key <~ Ed25519PrivateKey_generate;;
  let public_key := Ed25519_public_key private_key in
  py_ret (private_key, public_key).

Definition generate_session_key : Py bytes := urandom 32.

Definition wrap_session_key (session_key recipient_public_key : bytes)
    : Py bytes :=
  public_key <~ lift (X25519PublicKey_from_public_bytes recipient_public_key);;
  ephemeral_private <~ X25519PrivateKey_generate;;
  let ephemeral_public := X25519_public_key ephemeral_private in
  shared_key <~ lift (X25519_exchange ephemeral_private public_key);;
  let derived_key :=
    HKDF_SHA256_derive 32 None (b "session_key_wrap") shared_key in
  aesgcm <~ lift (AESGCM derived_key);;
  nonce <~ urandom 12;;
  ciphertext <~ lift (AESGCM_encrypt aesgcm nonce session_key);;
  let ephemeral_public_bytes := ephemeral_public in
  py_ret (ephemeral_public_bytes ++ nonce ++ ciphertext).

Definition unwrap_session_key (wrapped_key private_key : bytes)
    : outcome bytes :=
  let ephemeral_public_bytes := take 32 wrapped_key in
  let nonce := take 12 (drop 32 wrapped_key) in
  let ciphertext := drop 44 wrapped_key in
  ephemeral_public ← X25519PublicKey_from_public_bytes ephemeral_public_bytes;
  private ← X25519PrivateKey_from_private_bytes private_key;
  shared_key ← X25519_exchange private ephemeral_public;
  let derived_key :=
    HKDF_SHA256_derive 32 None (b "session_key_wrap") shared_key in
  aesgcm ← AESGCM derived_key;
  session_key ← AESGCM_decrypt aesgcm nonce ciphertext;
  Return session_key.

Definition sign_data (data private_key : bytes) : outcome bytes :=
  signing_key ← Ed25519PrivateKey_from_private_bytes private_key;
  let signature := Ed25519_sign signing_key data in
  Return signature.

Definition verify_signature (data signature public_key : bytes)
    : outcome bool :=
  try_except
    (verifying_key ← Ed25519PublicKey_from_public_bytes public_key;
     _ ← Ed25519_verify verifying_key signature data;
     Return true)
    any_Exception
    (λ _, Return false).

(** [salt = None] is the omitted argument. The value returned is
    [derived_key] alone. *)
Definition derive_seed (key : bytes) (salt : option bytes) : Py bytes :=
  salt <~ match salt with
          | None => urandom 16
          | Some s => py_ret s
          end;;
  let derived_key :=
    HKDF_SHA256_derive 32 (Some salt) (b "stego_seed") key in
  py_ret derived_key.

End with_lib.
End KeyManager.

(** ** [PayloadProcessor] *)

Module PayloadProcessor.
Section with_lib.
Context {L : CryptoLib}.

Definition prepare_payload (message session_key : bytes)
    (signing_key : option bytes) : Py (bytes * gmap string pyval) :=
  let compressed := gzip_compress message in
  nonce <~ urandom 12;;
  aesgcm <~ lift (AESGCM session_key);;
  encrypted <~ lift (AESGCM_encrypt aesgcm nonce compressed);;
  signature <~ lift (match signing_key with
                     | Some sk =>
                         s ← KeyManager.sign_data encrypted sk; Return (Some s)
                     | None => Return None
                     end);;
  let metadata : gmap string pyval :=
    <["version" := PInt 1]>
      (<["nonce" := PBytes nonce]>
         (<["has_signature" := PBool (bool_decide (is_Some signature))]> ∅)) in
  let payload := match signature with
                 | Some s => s ++ encrypted
                 | None => encrypted
                 end in
  let encoded_payload := RSCodec_encode RS_REDUNDANCY payload in
  header <~ urandom HEADER_SIZE;;
  let final_payload := header ++ encoded_payload in
  py_ret (final_payload, metadata).

Definition extract_payload (embedded_data session_key : bytes)
    (verify_key : option bytes) : outcome bytes :=
  let header := take HEADER_SIZE embedded_data in
  let encoded_payload := drop HEADER_SIZE embedded_data in
  payload ← try_except (RSCodec_decode RS_REDUNDANCY encoded_payload)
    is_ReedSolomonError
    (λ _, Raise (ValueError
       "Too many errors in the embedded data to recover the payload"));
  encrypted ← match verify_key with
    | Some vk =>
        let signature := take 64 payload in
        let encrypted := drop 64 payload in
        ok ← KeyManager.verify_signature encrypted signature vk;
        if negb ok then Raise (ValueError "Signature verification failed")
        else Return encrypted
    | None => Return payload
    end;
  let nonce := take 12 header in
  aesgcm ← AESGCM session_key;
  compressed ← try_except (AESGCM_decrypt aesgcm nonce encrypted)
    any_Exception
    (λ _, Raise (ValueError
       "Decryption failed - incorrect key or corrupted data"));
  message ← try_except (gzip_decompress compressed)
    any_Exception
    (λ _, Raise (ValueError "Decompression failed - data may be corrupted"));
  Return message.

End with_lib.
End PayloadProcessor.

(** ** IEEE 754 double precision

    NumPy's [float64] and Python's [float]. [value] is the rational a finite
    float stands for ([None] for an infinity or a NaN), [float_of_Z] the
    float nearest to an integer, an infinity when the integer is out of
    range; the operations round to nearest, ties to even. *)

Module Float64.

Class FloatLib := {
  float64 : Type;
  value : float64 → option Q;
  float_of_Z : Z → float64;
  half : float64;
  fdiv : float64 → float64 → float64;
  fadd : float64 → float64 → float64;
  fsub : float64 → float64 → float64;
  fabs : float64 → float64;
  fltb : float64 → float64 → bool
}.

(** The float [x] is finite and stands for the rational [q]. *)
Definition is_value `{FloatLib} (x : float64) (q : Q) : Prop :=
  ∃ r, value x = Some r ∧ (r == q)%Q.

(** The integers and half-integers of magnitude up to [2^52]: every one of
    them is a float. *)
Definition half_integer (q : Q) : Prop :=
  ∃ k : Z, (Z.abs k ≤ 2 ^ 53)%Z ∧ (q == k # 2)%Q.

Definition unit_roundoff : Q := 1 # 2 ^ 53.
Definition half_least_subnormal : Q := 1 # 2 ^ 1075.

(** How far rounding to nearest moves a result [q] that does not overflow. *)
Definition rounding_bound (q : Q) : Q :=
  (Qabs q * unit_roundoff + half_least_subnormal)%Q.

(** What the standard guarantees of correctly rounded operations: a result
    that is a float is returned as it is, any other result is moved by at most
    [rounding_bound]; [abs] and [<] are exact. *)
Class FloatLaws (F : FloatLib) : Prop := {
  float_of_Z_exact : ∀ z,
    (Z.abs z ≤ 2 ^ 53)%Z → is_value (float_of_Z z) (inject_Z z);
  half_exact : is_value half (1 # 2);
  fdiv_exact : ∀ x y a c, is_value x a → is_value y c → ¬ (c == 0)%Q →
    half_integer (a / c) → is_value (fdiv x y) (a / c);
  fadd_exact : ∀ x y a c, is_value x a → is_value y c →
    half_integer (a + c) → is_value (fadd x y) (a + c);
  fsub_exact : ∀ x y a c, is_value x a → is_value y c →
    half_integer (a - c) → is_value (fsub x y) (a - c);
  fdiv_near : ∀ x y a c, is_value x a → is_value y c → ¬ (c == 0)%Q →
    (Qabs (a / c) <= 2 ^ 1000)%Q →
    ∃ r, is_value (fdiv x y) r
         ∧ (Qabs (r - a / c) <= rounding_bound (a / c))%Q;
  fadd_near : ∀ x y a c, is_value x a → is_value y c →
    (Qabs (a + c) <= 2 ^ 1000)%Q →
    ∃ r, is_value (fadd x y) r
         ∧ (Qabs (r - (a + c)) <= rounding_bound (a + c))%Q;
  fabs_exact : ∀ x a, is_value x a → is_value (fabs x) (Qabs a);
  fltb_exact : ∀ x y a c, is_value x a → is_value y c →
    fltb x y = true ↔ (a < c)%Q
}.

(** *** binary64 itself: the primitive floats *)

Definition binary64_value (x : PrimFloat.float) : option Q :=
  match FloatOps.Prim2SF x with
  | SpecFloat.S754_zero _ => Some 0%Q
  | SpecFloat.S754_finite s m e =>
      let n := if s then Z.neg m else Z.pos m in
      Some (Qred (if decide (0 ≤ e)%Z then inject_Z (n * 2 ^ e)
                  else Qmake n (Z.to_pos (2 ^ (- e)))))
  | _ => None
  end.

Definition binary64_of_Z (z : Z) : PrimFloat.float :=
  FloatOps.SF2Prim (SpecFloat.binary_normalize 53 1024 z 0 false).

Module Literals.
Import PrimFloat.
Definition one_half : float := 0.5%float.
End Literals.

#[global] Instance binary64 : FloatLib := {|
  float64 := PrimFloat.float;
  value := binary64_value;
  float_of_Z := binary64_of_Z;
  half := Literals.one_half;
  fdiv := PrimFloat.div;
  fadd := PrimFloat.add;
  fsub := PrimFloat.sub;
  fabs := PrimFloat.abs;
  fltb := PrimFloat.ltb
|}.

(** *** Arithmetic without rounding

    Every rational is a float and no operation rounds: the laws hold of it,
    which shows them satisfiable. *)

Definition Qltb (a c : Q) : bool := if Qlt_le_dec a c then true else false.

Definition exact : FloatLib := {|
  float64 := Q;
  value := Some;
  float_of_Z := inject_Z;
  half := (1 # 2)%Q;
  fdiv := Qdiv;
  fadd := Qplus;
  fsub := Qminus;
  fabs := Qabs;
  fltb := Qltb
|}.

End Float64.

(** ** [ImageSteganography]

    A 2-D array is its list of rows, [flatten] reads it in row-major order.
    The coefficient arrays hold rationals (every finite [float64] is one), and
    [embed_coeff] and [extract_bit] are the QIM formulas read in exact
    arithmetic, which is what the array-level routines [_embed_in_coeffs] and
    [_extract_from_coeffs] are written over; [embed_coeff_float] and
    [extract_bit_float] are the same two loop bodies in [float64], with the
    rounding of every operation. *)

Module ImageSteganography.

Definition flatten (a : list (list Q)) : list Q := mjoin a.
Definition shape (a : list (list Q)) : list nat := length <$> a.
Definition reshape_to (flat : list Q) (shp : list nat) : list (list Q) :=
  reshape shp flat.
Definition size (a : list (list Q)) : nat := sum_list (shape a).

(** The list [pywt.wavedec2(y, 'haar', level=2)] returns:
    [[cA2, (d2_0, d2_1, d2_2), (d1_0, d1_1, d1_2)]]. *)
Record wavedec := Wavedec {
  cA2 : list (list Q);
  level2 : list (list Q) * list (list Q) * list (list Q);
  level1 : list (list Q) * list (list Q) * list (list Q)
}.

(** [coeffs[1][1]] *)
Definition coeffs_1_1 (coeffs : wavedec) : list (list Q) := (level2 coeffs).1.2.

(** The built-in [round] on a float: to the nearest integer, ties to even. *)
Definition py_round (x : Q) : Z :=
  let f := Qfloor x in
  match (x - inject_Z f ?= (1 # 2))%Q with
  | Lt => f
  | Gt => (f + 1)%Z
  | Eq => if Z.even f then f else (f + 1)%Z
  end.

Definition delta : Q := 20%Q.

(** Body of the embedding loop: the value stored in [flat_coeffs[i]]. *)
Definition embed_coeff (bit : Z) (coeff : Q) : Q :=
  if decide (bit = 0%Z)
  then (delta * inject_Z (py_round (coeff / delta)))%Q
  else (delta * inject_Z (py_round (coeff / delta + (1 # 2))) - delta / 2)%Q.

(** Body of the extraction loop: the bit appended to [payload_bits]. *)
Definition extract_bit (coeff : Q) : Z :=
  let q0 := (delta * inject_Z (py_round (coeff / delta)))%Q in
  let q1 :=
    (delta * inject_Z (py_round (coeff / delta + (1 # 2))) - delta / 2)%Q in
  if Qlt_le_dec (Qabs (coeff - q0)) (Qabs (coeff - q1)) then 0%Z else 1%Z.

(** One iteration [i] of [for i in range(len(payload_bits))]. The capacity
    check makes both lookups succeed. *)
Definition embed_iteration (payload_bits : list Z) (flat_coeffs : list Q)
    (i : nat) : list Q :=
  match payload_bits !! i, flat_coeffs !! i with
  | Some bit, Some coeff => <[i := embed_coeff bit coeff]> flat_coeffs
  | _, _ => flat_coeffs
  end.

(** [coeffs] is a list the function updates in place and returns: the second
    component of the result is the caller's [coeffs] object after the call. *)
Definition _embed_in_coeffs (coeffs : wavedec) (payload_bits : list Z)
    (key : option bytes) : outcome wavedec * wavedec :=
  let h_coeffs := coeffs_1_1 coeffs in
  let flat_coeffs := flatten h_coeffs in
  if decide (length flat_coeffs < length payload_bits)
  then (Raise (ValueError ("Payload too large. Max capacity: "
                           +:+ pretty (length flat_coeffs) +:+ " bits")),
        coeffs)
  else
    let flat_coeffs :=
      foldl (embed_iteration payload_bits) flat_coeffs
            (seq 0 (length payload_bits)) in
    let h_coeffs := reshape_to flat_coeffs (shape h_coeffs) in
    let coeffs :=
      Wavedec (cA2 coeffs)
              ((level2 coeffs).1.1, h_coeffs, (level2 coeffs).2)
              (level1 coeffs) in
    (Return coeffs, coeffs).

(** [for i in range(payload_length)] from index [i] with [n] iterations left;
    [break] when [i >= len(flat_coeffs)]. *)
Fixpoint extract_loop (flat_coeffs : list Q) (i n : nat)
    (payload_bits : list Z) : list Z :=
  match n with
  | O => payload_bits
  | S n' =>
      match flat_coeffs !! i with
      | None => payload_bits
      | Some coeff =>
          extract_loop flat_coeffs (S i) n' (payload_bits ++ [extract_bit coeff])
      end
  end.

Definition _extract_from_coeffs (coeffs : wavedec) (payload_length : nat)
    (key : option bytes) : list Z :=
  let h_coeffs := coeffs_1_1 coeffs in
  let flat_coeffs := flatten h_coeffs in
  extract_loop flat_coeffs 0 payload_length [].

(** Pillow and PyWavelets. [luma] is [np.array] of the first channel of
    [img.convert('YCbCr').split()]. *)
Class ImagingLib := {
  image : Type;
  Image_open : bytes → outcome image;
  image_size : image → nat * nat;
  getbands : image → list string;
  luma : image → list (list Z);
  wavedec2_haar_level2 : list (list Z) → wavedec
}.

(** True division [a / b] of two ints. *)
Definition truediv (a c : Z) : outcome Q :=
  if decide (c = 0%Z) then Raise ZeroDivisionError
  else Return (inject_Z a / inject_Z c)%Q.

Section with_lib.
Context {I : ImagingLib}.

Definition _apply_dwt (y_channel : list (list Z)) : wavedec :=
  wavedec2_haar_level2 y_channel.

Definition analyze_capacity (image_data : bytes)
    : outcome (gmap string pyval) :=
  img ← Image_open image_data;
  let y_array := luma img in
  let coeffs := _apply_dwt y_array in
  let h_coeffs := coeffs_1_1 coeffs in
  let total_coeffs := Z.of_nat (size h_coeffs) in
  let usable_bits := (total_coeffs - 32)%Z in
  let usable_bytes := (usable_bits `div` 8)%Z in
  let image_size_bytes :=
    (Z.of_nat (image_size img).1 * Z.of_nat (image_size img).2
     * Z.of_nat (length (getbands img)))%Z in
  efficiency_ratio ← truediv usable_bytes image_size_bytes;
  Return (<["total_coefficients" := PInt total_coeffs]>
         (<["usable_bits" := PInt usable_bits]>
         (<["usable_bytes" := PInt usable_bytes]>
         (<["image_size_bytes" := PInt image_size_bytes]>
         (<["efficiency_ratio" := PFloat efficiency_ratio]> ∅))))).

End with_lib.

(** *** The loop bodies in [float64]

    [coeff] is a [numpy.float64], [delta] the int 20. [round] returns a
    Python int, so [delta * round(...)] is an exact int; storing it in the
    [float64] array, and subtracting the float [delta/2] from it, convert it
    to the nearest float. [None] stands for the exception of a step that
    raises: [round] of an infinity or a NaN, the conversion of an int beyond
    the range of a float. *)

Section float64.
Import Float64.
Context {F : FloatLib}.

(** The built-in [round] on a float. *)
Definition round_float (x : float64) : option Z := py_round <$> value x.

(** A Python int where a float is needed. *)
Definition float_of_int (z : Z) : option float64 :=
  let f := float_of_Z z in
  match value f with
  | Some _ => Some f
  | None => None
  end.

(** Body of the embedding loop: the value stored in [flat_coeffs[i]]. *)
Definition embed_coeff_float (bit : Z) (coeff : float64) : option float64 :=
  if decide (bit = 0%Z)
  then n ← round_float (fdiv coeff (float_of_Z 20));
       float_of_int (20 * n)
  else m ← round_float (fadd (fdiv coeff (float_of_Z 20)) half);
       f ← float_of_int (20 * m);
       Some (fsub f (fdiv (float_of_Z 20) (float_of_Z 2))).

(** Body of the extraction loop: the bit appended to [payload_bits]. *)
Definition extract_bit_float (coeff : float64) : option Z :=
  n ← round_float (fdiv coeff (float_of_Z 20));
  let q0 := (20 * n)%Z in
  m ← round_float (fadd (fdiv coeff (float_of_Z 20)) half);
  f ← float_of_int (20 * m);
  let q1 := fsub f (fdiv (float_of_Z 20) (float_of_Z 2)) in
  q0 ← float_of_int q0;
  Some (if fltb (fabs (fsub coeff q0)) (fabs (fsub coeff q1))
        then 0%Z else 1%Z).

End float64.

(** *** [embed]

    The way back to an image: [waverec2_haar] is [pywt.waverec2(coeffs,
    'haar')], [clip_uint8] is [np.clip(a, 0, 255).astype(np.uint8)], and
    [merge_save_png img y] is the PNG of [Image.merge('YCbCr', (y, cb, cr))]
    converted to RGB, with [cb] and [cr] the chroma channels of [img];
    [Image.merge] raises when the sizes differ. *)
Class ImagingWriteLib (I : ImagingLib) := {
  plane : Type;
  waverec2_haar : wavedec → plane;
  clip_uint8 : plane → list (list Z);
  merge_save_png : image → list (list Z) → outcome bytes
}.

(** An object met where the loop of [_embed_in_coeffs] expects a bit. The
    loop only tests [bit == 0]: an int is compared by value, and neither a
    [bytes] object nor a [dict] is equal to [0]. *)
Inductive pyobject : Type :=
| ObjInt (n : Z)
| ObjBytes (s : bytes)
| ObjDict (d : gmap string pyval).

Definition as_bit (o : pyobject) : Z :=
  match o with
  | ObjInt n => n
  | ObjBytes _ | ObjDict _ => 1%Z
  end.

Section codec.
Context {L : CryptoLib} {I : ImagingLib} {W : ImagingWriteLib I}.

Definition _inverse_dwt (coeffs : wavedec) : plane := waverec2_haar coeffs.

(** [key=None] is the omitted argument; [AESGCM(None)] raises [TypeError]
    after the nonce has been drawn. [payload_bits] is what [prepare_payload]
    returns, the pair of the wire payload and the metadata dictionary: a
    sequence of length 2. *)
Definition embed (image_data payload : bytes) (key : option bytes)
    : Py bytes :=
  payload_bits <~ match key with
                  | Some k => PayloadProcessor.prepare_payload payload k None
                  | None =>
                      _ <~ urandom 12;;
                      lift (Raise (TypeError "key must be bytes-like"))
                  end;;
  img <~ lift (Image_open image_data);;
  let y_array := luma img in
  let coeffs := _apply_dwt y_array in
  modified_coeffs <~ lift
    (_embed_in_coeffs coeffs
       (as_bit <$> [ObjBytes payload_bits.1; ObjDict payload_bits.2]) key).1;;
  let modified_y := _inverse_dwt modified_coeffs in
  let modified_y := clip_uint8 modified_y in
  lift (merge_save_png img modified_y).

End codec.
End ImageSteganography.

(** ** [AudioSteganography] *)

Module AudioSteganography.

(** pydub. *)
Class AudioLib := {
  audio_segment : Type;
  AudioSegment_from_file : bytes → outcome audio_segment;
  get_array_of_samples : audio_segment → list Z
}.

Section with_lib.
Context {A : AudioLib}.

Definition extract (audio_data seed : bytes) (payload_size : nat)
    : outcome bytes :=
  try_except
    (audio ← AudioSegment_from_file audio_data;
     let samples := get_array_of_samples audio in
     Return (b "Extracted payload from audio"))
    any_Exception
    (λ e, Raise e).

End with_lib.
End AudioSteganography.

(** ** [VideoSteganography]

    The state is the directory of temporary files, file name to contents. *)

Module VideoSteganography.

(** [tempfile.NamedTemporaryFile(delete=False, ...)]: a new empty file under
    a name not in use. *)
Definition NamedTemporaryFile : St (gmap string bytes) string := λ fs,
  let name := fresh (dom fs) in (Return name, <[name := []]> fs).

Definition file_write (name : string) (d : bytes)
    : St (gmap string bytes) unit := λ fs,
  match fs !! name with
  | Some old => (Return (), <[name := old ++ d]> fs)
  | None => (Raise (FileNotFoundError name), fs)
  end.

Definition os_unlink (name : string) : St (gmap string bytes) unit := λ fs,
  match fs !! name with
  | Some _ => (Return (), delete name fs)
  | None => (Raise (FileNotFoundError name), fs)
  end.

Definition st_try_except {S A} (body : St S A) (catches : exn → bool)
    (handler : exn → St S A) : St S A := λ s,
  match body s with
  | (Return a, s') => (Return a, s')
  | (Raise e, s') => if catches e then handler e s' else (Raise e, s')
  end.

Definition extract (video_data seed : bytes) (payload_size : nat)
    : St (gmap string bytes) bytes :=
  st_try_except
    (input_file <~ NamedTemporaryFile;;
     _ <~ file_write input_file video_data;;
     _ <~ os_unlink input_file;;
     st_ret (b "Extracted payload from video"))
    any_Exception
    (λ e, lift (Raise e)).

End VideoSteganography.

(** ** A reference instance of the library interface

    Small stand-ins with the same shapes as the real primitives (a 16-byte
    tag bound to key and nonce, 32-byte keys, 64-byte signatures, [nsym]
    parity bytes). They carry no security; they make the model executable on
    concrete inputs and show that [CryptoLaws] is satisfiable. *)

Module Reference.

Definition xor_byte (x y : byte) : byte :=
  default x00 (Byte.of_N (N.lxor (Byte.to_N x) (Byte.to_N y))).

Definition xor_bytes (s t : bytes) : bytes := zip_with xor_byte s t.

Definition pad (n : nat) (s : bytes) : bytes := take n (s ++ replicate n x00).

Definition of_length (n : nat) (msg : string) (s : bytes) : outcome bytes :=
  if decide (length s = n) then Return s else Raise (ValueError msg).

Definition magic : bytes := [x1f; x8b].

Definition tag (k n : bytes) : bytes := pad 16 (n ++ k).

Definition decrypt (k n ct : bytes) : outcome bytes :=
  let m := length ct - 16 in
  if decide (16 ≤ length ct ∧ drop m ct = tag k n)
  then Return (take m ct) else Raise InvalidTag.

Definition rs_decode (nsym : nat) (d : bytes) : outcome bytes :=
  let m := length d - nsym in
  if decide (nsym ≤ length d ∧ drop m d = replicate nsym x00)
  then Return (take m d) else Raise (ReedSolomonError "Too many errors").

#[global] Instance lib : CryptoLib := {|
  gzip_compress d := magic ++ d;
  gzip_decompress d :=
    if decide (take 2 d = magic) then Return (drop 2 d)
    else Raise (BadGzipFile "Not a gzipped file");
  AESGCM k :=
    if decide (length k = 16 ∨ length k = 24 ∨ length k = 32) then Return k
    else Raise (ValueError "AESGCM key must be 128, 192, or 256 bits.");
  AESGCM_encrypt k n pt := Return (pt ++ tag k n);
  AESGCM_decrypt := decrypt;
  RSCodec_encode nsym d := d ++ replicate nsym x00;
  RSCodec_decode := rs_decode;
  X25519PublicKey_from_public_bytes :=
    of_length 32 "An X25519 public key is 32 bytes long";
  X25519PrivateKey_from_private_bytes :=
    of_length 32 "An X25519 private key is 32 bytes long";
  X25519_public_key priv := priv;
  X25519_exchange priv pub := Return (xor_bytes priv pub);
  Ed25519PublicKey_from_public_bytes :=
    of_length 32 "An Ed25519 public key is 32 bytes long";
  Ed25519PrivateKey_from_private_bytes :=
    of_length 32 "An Ed25519 private key is 32 bytes long";
  Ed25519_public_key priv := priv;
  Ed25519_sign priv data := pad 64 (priv ++ data);
  Ed25519_verify pub sig data :=
    if decide (sig = pad 64 (pub ++ data)) then Return ()
    else Raise InvalidSignature;
  HKDF_SHA256_derive n salt info ikm :=
    xor_bytes (pad n ikm) (pad n (default [] salt ++ info))
|}.

(** pydub stand-in: a RIFF container decodes, anything else does not. *)
#[global] Instance audio : AudioSteganography.AudioLib := {|
  AudioSteganography.audio_segment := bytes;
  AudioSteganography.AudioSegment_from_file d :=
    if decide (take 4 d = b "RIFF") then Return d
    else Raise (CouldntDecodeError "Decoding failed");
  AudioSteganography.get_array_of_samples d := byte_to_Z <$> drop 44 d
|}.

(** Pillow/PyWavelets stand-in for solid gray images: the three bytes
    [width, height, gray] decode to a [width x height] single-band image of
    that gray level, whose Haar detail coefficients all vanish. *)
Definition solid_wavedec (y : list (list Z)) : ImageSteganography.wavedec :=
  let h2 := (length y + 3) / 4 in
  let w2 := (length (default [] (head y)) + 3) / 4 in
  let h1 := (length y + 1) / 2 in
  let w1 := (length (default [] (head y)) + 1) / 2 in
  let g := default 0%Z (head (default [] (head y))) in
  let zero2 := replicate h2 (replicate w2 0%Q) in
  let zero1 := replicate h1 (replicate w1 0%Q) in
  ImageSteganography.Wavedec
    (replicate h2 (replicate w2 (inject_Z (4 * g))))
    (zero2, zero2, zero2) (zero1, zero1, zero1).

#[global] Instance imaging : ImageSteganography.ImagingLib := {|
  ImageSteganography.image := nat * nat * Z;
  ImageSteganography.Image_open d :=
    match d with
    | [w; h; g] =>
        Return (N.to_nat (Byte.to_N w), N.to_nat (Byte.to_N h), byte_to_Z g)
    | _ => Raise (ValueError "cannot identify image file")
    end;
  ImageSteganography.image_size img := (img.1.1, img.1.2);
  ImageSteganography.getbands img := ["L"];
  ImageSteganography.luma img := replicate img.1.2 (replicate img.1.1 img.2);
  ImageSteganography.wavedec2_haar_level2 := solid_wavedec
|}.

(** Stand-in for the way back to an image: the plane is the marked band, and
    the "PNG" is the list of its clipped samples. *)
#[global] Instance imaging_write
    : ImageSteganography.ImagingWriteLib imaging := {|
  ImageSteganography.plane := list (list Q);
  ImageSteganography.waverec2_haar c := ImageSteganography.coeffs_1_1 c;
  ImageSteganography.clip_uint8 p :=
    map (map (λ q, Z.max 0 (Z.min 255 (Qfloor q)))) p;
  ImageSteganography.merge_save_png img y :=
    Return ((λ v, byte_of_nat (Z.to_nat v)) <$> mjoin y)
|}.

(** A second signature stand-in, one that binds every byte of the data: the
    last byte of a signature is a checksum of the data, which changes when
    any one byte of the data does. *)
Fixpoint checksum (s : bytes) : nat :=
  match s with
  | [] => 0
  | x :: s' => (Byte.to_nat x + checksum s') mod 256
  end.

Definition sign_checked (priv data : bytes) : bytes :=
  pad 63 (priv ++ data) ++ [byte_of_nat (checksum data)].

Definition binding_lib : CryptoLib := {|
  gzip_compress := @gzip_compress lib;
  gzip_decompress := @gzip_decompress lib;
  AESGCM := @AESGCM lib;
  AESGCM_encrypt := @AESGCM_encrypt lib;
  AESGCM_decrypt := @AESGCM_decrypt lib;
  RSCodec_encode := @RSCodec_encode lib;
  RSCodec_decode := @RSCodec_decode lib;
  X25519PublicKey_from_public_bytes := @X25519PublicKey_from_public_bytes lib;
  X25519PrivateKey_from_private_bytes :=
    @X25519PrivateKey_from_private_bytes lib;
  X25519_public_key := @X25519_public_key lib;
  X25519_exchange := @X25519_exchange lib;
  Ed25519PublicKey_from_public_bytes :=
    @Ed25519PublicKey_from_public_bytes lib;
  Ed25519PrivateKey_from_private_bytes :=
    @Ed25519PrivateKey_from_private_bytes lib;
  Ed25519_public_key priv := priv;
  Ed25519_sign := sign_checked;
  Ed25519_verify pub sig data :=
    if decide (sig = sign_checked pub data) then Return ()
    else Raise InvalidSignature;
  HKDF_SHA256_derive := @HKDF_SHA256_derive lib
|}.

(** The tape 0, 1, 2, ... (mod 256), an all-zero tape, and the test key. *)
Definition counting : entropy := Entropy byte_of_nat 0.
Definition zeros : entropy := Entropy (λ _, x00) 0.
Definition zero_key : bytes := replicate 32 x00.

End Reference.

(** ** [DocumentSteganography] *)

Module DocumentSteganography.

(** A value passed for [document_type]: [None], a string, or (as
    [extract_command] does) a number. *)
Inductive pyarg : Type :=
| ArgNone
| ArgStr (s : string)
| ArgInt (n : Z).

#[global] Instance pyarg_eq_decision : EqDecision pyarg.
Proof. solve_decision. Defined.

(** The values of the capacity dictionary. *)
Inductive docval : Type :=
| DStr (s : string)
| DInt (n : Z).

(** [bytes.hex()]: two lower-case digits per byte. *)
Definition hex_digit (n : N) : ascii :=
  ascii_of_N (if (n <? 10)%N then 48 + n else 87 + n).

Fixpoint bytes_hex (s : bytes) : string :=
  match s with
  | [] => EmptyString
  | x :: s' =>
      String (hex_digit (Byte.to_N x / 16))
        (String (hex_digit (Byte.to_N x mod 16)) (bytes_hex s'))
  end.

Definition hex_value (c : ascii) : option N :=
  let n := N_of_ascii c in
  if (48 <=? n)%N && (n <=? 57)%N then Some (n - 48)%N
  else if (97 <=? n)%N && (n <=? 102)%N then Some (n - 87)%N
  else if (65 <=? n)%N && (n <=? 70)%N then Some (n - 55)%N
  else None.

Definition is_space (c : ascii) : bool :=
  let n := N_of_ascii c in (n =? 32)%N || ((9 <=? n)%N && (n <=? 13)%N).

(** [bytes.fromhex]: pairs of hexadecimal digits, white space between the
    pairs skipped. *)
Fixpoint bytes_fromhex (s : string) : outcome bytes :=
  match s with
  | EmptyString => Return []
  | String c rest =>
      if is_space c then bytes_fromhex rest
      else
        match rest with
        | EmptyString =>
            Raise (ValueError "non-hexadecimal number found in fromhex() arg")
        | String d rest' =>
            match hex_value c, hex_value d with
            | Some hi, Some lo =>
                tl ← bytes_fromhex rest';
                Return (default x00 (Byte.of_N (16 * hi + lo)) :: tl)
            | _, _ =>
                Raise (ValueError
                         "non-hexadecimal number found in fromhex() arg")
            end
        end
  end.

(** pikepdf: [Root_has_Stego] is [hasattr(pdf.Root, 'Stego')],
    [Root_Stego_read_bytes] is [pdf.Root.Stego.read_bytes()],
    [set_Root_Stego] the assignment [pdf.Root.Stego = pikepdf.Stream(pdf,
    payload)], [Pdf_save] the bytes written by [pdf.save]. *)
Class PdfLib := {
  pdf : Type;
  Pdf_open : bytes → outcome pdf;
  Root_has_Stego : pdf → bool;
  Root_Stego_read_bytes : pdf → outcome bytes;
  set_Root_Stego : pdf → bytes → pdf;
  Pdf_save : pdf → bytes
}.

Class PdfLaws (P : PdfLib) : Prop := {
  pdf_save_open : ∀ d, Pdf_open (Pdf_save d) = Return d;
  pdf_has_stego : ∀ d payload, Root_has_Stego (set_Root_Stego d payload) = true;
  pdf_read_stego : ∀ d payload,
    Root_Stego_read_bytes (set_Root_Stego d payload) = Return payload
}.

(** python-docx: [Document_load] is [Document(path)] on the contents of the
    file, [comments] reads [doc.core_properties.comments],
    [set_comments] assigns it. *)
Class DocxLib := {
  document : Type;
  Document_load : bytes → outcome document;
  comments : document → string;
  set_comments : document → string → outcome document;
  Document_save : document → bytes
}.

Class DocxLaws (D : DocxLib) : Prop := {
  docx_save_load : ∀ d, Document_load (Document_save d) = Return d;
  docx_comments_set : ∀ d d' text,
    set_comments d text = Return d' → comments d' = text
}.

(** [open(path, 'rb').read()] *)
Definition read_file (path : string) : St (gmap string bytes) bytes := λ fs,
  match fs !! path with
  | Some contents => (Return contents, fs)
  | None => (Raise (FileNotFoundError path), fs)
  end.

(** [doc.save(path)] on the temporary file just created: the file exists
    and is replaced. *)
Definition write_file (path : string) (data : bytes)
    : St (gmap string bytes) unit := λ fs, (Return (), <[path := data]> fs).

Section with_lib.
Context {P : PdfLib} {D : DocxLib}.

Definition embed_pdf (pdf_data payload seed : bytes) : outcome bytes :=
  try_except
    (pdf ← Pdf_open pdf_data;
     let pdf := set_Root_Stego pdf payload in
     Return (Pdf_save pdf))
    any_Exception
    (λ e, Raise e).

Definition extract_pdf (pdf_data seed : bytes) : outcome bytes :=
  try_except
    (pdf ← Pdf_open pdf_data;
     if Root_has_Stego pdf then Root_Stego_read_bytes pdf
     else Raise (ValueError "No steganographic payload found in PDF"))
    any_Exception
    (λ e, Raise e).

Definition embed_docx (docx_data payload seed : bytes)
    : St (gmap string bytes) bytes :=
  VideoSteganography.st_try_except
    (input_file <~ VideoSteganography.NamedTemporaryFile;;
     output_file <~ VideoSteganography.NamedTemporaryFile;;
     _ <~ VideoSteganography.file_write input_file docx_data;;
     contents <~ read_file input_file;;
     doc <~ lift (Document_load contents);;
     doc <~ lift (set_comments doc (bytes_hex payload));;
     _ <~ write_file output_file (Document_save doc);;
     result <~ read_file output_file;;
     _ <~ VideoSteganography.os_unlink input_file;;
     _ <~ VideoSteganography.os_unlink output_file;;
     st_ret result)
    any_Exception
    (λ e, lift (Raise e)).

Definition extract_docx (docx_data seed : bytes)
    : St (gmap string bytes) bytes :=
  VideoSteganography.st_try_except
    (input_file <~ VideoSteganography.NamedTemporaryFile;;
     _ <~ VideoSteganography.file_write input_file docx_data;;
     contents <~ read_file input_file;;
     doc <~ lift (Document_load contents);;
     payload <~ lift (if decide (comments doc = "")
                      then Raise (ValueError
                                    "No steganographic payload found in DOCX")
                      else bytes_fromhex (comments doc));;
     _ <~ VideoSteganography.os_unlink input_file;;
     st_ret payload)
    any_Exception
    (λ e, lift (Raise e)).

(** [document_type == 'pdf' or (document_type is None and
    document_data[:4] == b'%PDF')] *)
Definition is_pdf (document_data : bytes) (document_type : pyarg) : bool :=
  bool_decide (document_type = ArgStr "pdf")
  || (bool_decide (document_type = ArgNone)
      && bool_decide (take 4 document_data = b "%PDF")).

Definition is_docx (document_data : bytes) (document_type : pyarg) : bool :=
  bool_decide (document_type = ArgStr "docx")
  || (bool_decide (document_type = ArgNone)
      && bool_decide (take 2 document_data = b "PK")).

Definition embed (document_data payload seed : bytes) (document_type : pyarg)
    : St (gmap string bytes) bytes :=
  if is_pdf document_data document_type
  then lift (embed_pdf document_data payload seed)
  else if is_docx document_data document_type
  then embed_docx document_data payload seed
  else lift (Raise (ValueError "Unsupported document type")).

Definition extract (document_data seed : bytes) (document_type : pyarg)
    : St (gmap string bytes) bytes :=
  if is_pdf document_data document_type
  then lift (extract_pdf document_data seed)
  else if is_docx document_data document_type
  then extract_docx document_data seed
  else lift (Raise (ValueError "Unsupported document type")).

End with_lib.

Definition analyze_capacity (document_data : bytes) (document_type : pyarg)
    : outcome (gmap string docval) :=
  try_except
    (if is_pdf document_data document_type then
       let capacity_bytes := (Z.of_nat (length document_data) `div` 100)%Z in
       Return (<["type" := DStr "pdf"]>
              (<["size_bytes" := DInt (Z.of_nat (length document_data))]>
              (<["capacity_bytes" := DInt capacity_bytes]>
              (<["recommended_max_payload" :=
                   DInt (capacity_bytes `div` 2)%Z]> ∅))))
     else if is_docx document_data document_type then
       let capacity_bytes := (Z.of_nat (length document_data) `div` 200)%Z in
       Return (<["type" := DStr "docx"]>
              (<["size_bytes" := DInt (Z.of_nat (length document_data))]>
              (<["capacity_bytes" := DInt capacity_bytes]>
              (<["recommended_max_payload" :=
                   DInt (capacity_bytes `div` 2)%Z]> ∅))))
     else Raise (ValueError "Unsupported document type"))
    any_Exception
    (λ e, Return (<["capacity_bytes" := DInt 1000]>
                 (<["recommended_max_payload" := DInt 500]> ∅))).

End DocumentSteganography.

(** ** [cli.py] *)

Module Cli.

(** [str.rfind] of one character: the highest index, or -1. *)
Fixpoint rfind_from (c : ascii) (l : list ascii) (i found : Z) : Z :=
  match l with
  | [] => found
  | x :: l' => rfind_from c l' (i + 1) (if decide (x = c) then i else found)
  end.

Definition rfind (c : ascii) (l : list ascii) : Z := rfind_from c l 0 (-1).

(** [os.path.splitext] on a POSIX path: the extension starts at the last dot
    of the last component, leading dots of that component not counting. *)
Definition splitext (p : string) : string * string :=
  let l := list_ascii_of_string p in
  let sepIndex := rfind "/" l in
  let dotIndex := rfind "." l in
  if decide (sepIndex < dotIndex)%Z then
    let before_dot :=
      take (Z.to_nat (dotIndex - (sepIndex + 1)))
           (drop (Z.to_nat (sepIndex + 1)) l) in
    if forallb (λ ch, bool_decide (ch = "."%char)) before_dot then (p, "")
    else (string_of_list_ascii (take (Z.to_nat dotIndex) l),
          string_of_list_ascii (drop (Z.to_nat dotIndex) l))
  else (p, "").

(** [str.lower] on ASCII text. *)
Definition lower_char (c : ascii) : ascii :=
  let n := N_of_ascii c in
  if (65 <=? n)%N && (n <=? 90)%N then ascii_of_N (n + 32) else c.

Definition lower (s : string) : string :=
  string_of_list_ascii (lower_char <$> list_ascii_of_string s).

Definition detect_file_type (file_path : string) : outcome string :=
  let ext := (splitext file_path).2 in
  let ext := lower ext in
  if bool_decide (ext ∈ [".jpg"; ".jpeg"; ".png"; ".bmp"; ".tiff"; ".webp"])
  then Return "image"
  else if bool_decide (ext ∈ [".mp3"; ".wav"; ".ogg"; ".flac"; ".aac"])
  then Return "audio"
  else if bool_decide (ext ∈ [".mp4"; ".avi"; ".mov"; ".mkv"; ".webm"])
  then Return "video"
  else if bool_decide (ext = ".pdf") then Return "pdf"
  else if bool_decide (ext ∈ [".docx"; ".doc"]) then Return "docx"
  else Raise (ValueError ("Unsupported file type: " +:+ ext)).

(** The object [get_steganography_handler] returns. *)
Inductive handler : Type :=
| ImageHandler
| AudioHandler
| VideoHandler
| DocumentHandler.

Definition get_steganography_handler (file_type : string) : outcome handler :=
  if bool_decide (file_type = "image") then Return ImageHandler
  else if bool_decide (file_type = "audio") then Return AudioHandler
  else if bool_decide (file_type = "video") then Return VideoHandler
  else if bool_decide (file_type ∈ ["pdf"; "docx"]) then Return DocumentHandler
  else Raise (ValueError ("Unsupported file type: " +:+ file_type)).

(** The files, the entropy source and the lines printed. Log records are
    not part of the state. *)
Record world := World {
  files : gmap string bytes;
  rng : entropy;
  stdout : list string
}.

Definition with_files {A} (m : St (gmap string bytes) A) : St world A := λ w,
  let '(r, fs) := m (files w) in (r, World fs (rng w) (stdout w)).

Definition with_rng {A} (m : Py A) : St world A := λ w,
  let '(r, e) := m (rng w) in (r, World (files w) e (stdout w)).

Definition print (line : string) : St world unit := λ w,
  (Return (), World (files w) (rng w) (stdout w ++ [line])).

(** How a command ends: it returns, or [sys.exit(code)] ends the process. *)
Inductive status : Type :=
| Returned
| SystemExit (code : Z).

(** [try: body except Exception: logger.error(...); sys.exit(1)] *)
Definition run_command (body : St world status) (w : world)
    : status * world :=
  match body w with
  | (Return st, w') => (st, w')
  | (Raise _, w') => (SystemExit 1, w')
  end.

Record extract_args := ExtractArgs {
  extract_input_file : string;
  extract_output_file : option string;
  extract_key_file : string;
  extract_payload_size : Z
}.

Record generate_keys_args := GenerateKeysArgs {
  generate_type : string;
  generate_output_file : string
}.

(** What the operating system answers to [open(path, 'wb')]: whether a file
    can be created or truncated at [path]. It cannot at the empty path, in a
    directory that does not exist, or where [path] names a directory. *)
Class FileSystem := { can_create : string → bool }.

(** [with open(path, 'wb') as f: f.write(data)]. The [OSError] of a refused
    [open] is one exception here, whatever its subclass; the commands catch
    every [Exception]. *)
Definition open_write `{FileSystem} (path : string) (data : bytes)
    : St (gmap string bytes) unit := λ fs,
  if decide (path = "") then (Raise (FileNotFoundError path), fs)
  else if can_create path then (Return (), <[path := data]> fs)
  else (Raise (FileNotFoundError path), fs).

Section with_lib.
Context {L : CryptoLib} {A : AudioSteganography.AudioLib}
        {P : DocumentSteganography.PdfLib} {D : DocumentSteganography.DocxLib}
        {FS : FileSystem}.

(** [bytes.decode('utf-8')]; [None] stands for [UnicodeDecodeError]. *)
Context (decode_utf8 : bytes → option string).

(** The call [handler.extract(input_data, key, args.payload_size)] with three
    positional arguments, by the class of [handler]:
    [ImageSteganography.extract(self, stego_data, key=None)] accepts two,
    the audio and video methods take the third as [payload_size],
    [DocumentSteganography.extract] as [document_type]. *)
Definition call_extract (h : handler) (input_data key : bytes)
    (payload_size : Z) : St (gmap string bytes) bytes :=
  match h with
  | ImageHandler =>
      lift (Raise (TypeError
        "ImageSteganography.extract() takes from 2 to 3 positional arguments but 4 were given"))
  | AudioHandler =>
      lift (AudioSteganography.extract input_data key (Z.to_nat payload_size))
  | VideoHandler =>
      VideoSteganography.extract input_data key (Z.to_nat payload_size)
  | DocumentHandler =>
      DocumentSteganography.extract input_data key
        (DocumentSteganography.ArgInt payload_size)
  end.

Definition extract_command (args : extract_args) : world → status * world :=
  run_command
    (input_data <~ with_files
       (DocumentSteganography.read_file (extract_input_file args));;
     key <~ with_files
       (DocumentSteganography.read_file (extract_key_file args));;
     file_type <~ lift (detect_file_type (extract_input_file args));;
     handler <~ lift (get_steganography_handler file_type);;
     payload <~ with_files
       (call_extract handler input_data key (extract_payload_size args));;
     message <~ lift (PayloadProcessor.extract_payload payload key None);;
     match extract_output_file args with
     | Some path =>
         if decide (path = "") then
           match decode_utf8 message with
           | Some text => _ <~ print text;; st_ret Returned
           | None => st_ret (SystemExit 1)
           end
         else
           _ <~ with_files (open_write path message);;
           st_ret Returned
     | None =>
         match decode_utf8 message with
         | Some text => _ <~ print text;; st_ret Returned
         | None => st_ret (SystemExit 1)
         end
     end).

Definition generate_keys_command (args : generate_keys_args)
    : world → status * world :=
  run_command
    (if decide (generate_type args = "session") then
       key <~ with_rng KeyManager.generate_session_key;;
       _ <~ with_files (open_write (generate_output_file args) key);;
       st_ret Returned
     else if decide (generate_type args = "exchange") then
       keys <~ with_rng KeyManager.generate_keypair;;
       _ <~ with_files (open_write (generate_output_file args) keys.1);;
       _ <~ with_files
         (open_write (generate_output_file args +:+ ".pub") keys.2);;
       st_ret Returned
     else if decide (generate_type args = "signing") then
       keys <~ with_rng KeyManager.generate_signing_keypair;;
       _ <~ with_files (open_write (generate_output_file args) keys.1);;
       _ <~ with_files
         (open_write (generate_output_file args +:+ ".pub") keys.2);;
       st_ret Returned
     else st_ret Returned).

End with_lib.
End Cli.

(** ** Reference instances of the document libraries *)

Module ReferenceDocs.

(** pikepdf stand-in: a PDF is its optional [Stego] stream. *)
#[global] Instance pdflib : DocumentSteganography.PdfLib := {|
  DocumentSteganography.pdf := option bytes;
  DocumentSteganography.Pdf_open d :=
    if decide (take 5 d = b "%PDF+") then Return (Some (drop 5 d))
    else if decide (take 4 d = b "%PDF") then Return None
    else Raise (ValueError "not a PDF file");
  DocumentSteganography.Root_has_Stego d := bool_decide (is_Some d);
  DocumentSteganography.Root_Stego_read_bytes d :=
    match d with
    | Some s => Return s
    | None => Raise (ValueError "no such attribute")
    end;
  DocumentSteganography.set_Root_Stego d payload := Some payload;
  DocumentSteganography.Pdf_save d :=
    match d with
    | Some s => b "%PDF+" ++ s
    | None => b "%PDF-"
    end
|}.

(** python-docx stand-in: a document is its comments property, which holds
    at most 255 characters. *)
#[global] Instance docxlib : DocumentSteganography.DocxLib := {|
  DocumentSteganography.document := string;
  DocumentSteganography.Document_load d :=
    if decide (take 2 d = b "PK") then Return (string_of_list_byte (drop 2 d))
    else Raise (ValueError "File is not a zip file");
  DocumentSteganography.comments d := d;
  DocumentSteganography.set_comments d text :=
    if decide (String.length text ≤ 255) then Return text
    else Raise (ValueError "exceeded 255 char limit for property");
  DocumentSteganography.Document_save d := b "PK" ++ list_byte_of_string d
|}.

(** A flat working directory: a file can be created under any name that has
    no directory part. *)
#[global] Instance filesystem : Cli.FileSystem := {|
  Cli.can_create path :=
    forallb (λ c, negb (Ascii.eqb c "/")) (list_ascii_of_string path)
|}.

End ReferenceDocs.

(** ** Proof automation *)

(** Equations between rationals built from integers with [+], [-] and [*]:
    cross-multiplied and left to [lia]. *)
Ltac qz :=
  unfold Qeq, Qminus, Qplus, Qopp, Qmult, inject_Z; cbn; lia.

(** * Properties *)

(** ** The reference instance satisfies the library laws *)

Lemma length_pad (n : nat) (s : bytes) : length (Reference.pad n s) = n.
Proof.
  unfold Reference.pad.
  rewrite length_take, length_app, length_replicate. lia.
Qed.

Lemma xor_byte_comm (x y : byte) :
  Reference.xor_byte x y = Reference.xor_byte y x.
Proof. unfold Reference.xor_byte. by rewrite N.lxor_comm. Qed.

Lemma xor_bytes_comm (s t : bytes) :
  Reference.xor_bytes s t = Reference.xor_bytes t s.
Proof.
  unfold Reference.xor_bytes. revert t.
  induction s as [|x s IH]; intros [|y t]; simpl; try done.
  by rewrite xor_byte_comm, IH.
Qed.

Lemma reference_decrypt_encrypt (k n pt : bytes) :
  Reference.decrypt k n (pt ++ Reference.tag k n) = Return pt.
Proof.
  unfold Reference.decrypt.
  assert (Hlen : length (pt ++ Reference.tag k n) - 16 = length pt).
  { rewrite length_app. unfold Reference.tag. rewrite length_pad. lia. }
  rewrite Hlen, drop_app_length, take_app_length.
  rewrite decide_True; [done|].
  split; [|done].
  rewrite length_app. unfold Reference.tag. rewrite length_pad. lia.
Qed.

Lemma reference_rs_decode_encode (nsym : nat) (d : bytes) :
  Reference.rs_decode nsym (d ++ replicate nsym x00) = Return d.
Proof.
  unfold Reference.rs_decode.
  assert (Hlen : length (d ++ replicate nsym x00) - nsym = length d).
  { rewrite length_app, length_replicate. lia. }
  rewrite Hlen, drop_app_length, take_app_length.
  rewrite decide_True; [done|].
  split; [|done]. rewrite length_app, length_replicate. lia.
Qed.

Lemma reference_laws : CryptoLaws Reference.lib.
Proof.
  split; simpl.
  - done.
  - intros pub Hp. unfold Reference.of_length. by rewrite decide_True.
  - intros priv Hp. unfold Reference.of_length. by rewrite decide_True.
  - intros a1 a2 _ _. exists (Reference.xor_bytes a1 a2).
    split; [done|]. by rewrite xor_bytes_comm.
  - intros n salt info ikm. unfold Reference.xor_bytes.
    rewrite length_zip_with, !length_pad. lia.
  - intros k Hk. rewrite decide_True; [done|]. auto.
  - intros k n pt _ _. eauto.
  - intros k n pt ct [= <-]. apply reference_decrypt_encrypt.
  - intros nsym d. apply reference_rs_decode_encode.
  - intros d. by rewrite drop_0.
  - intros pub Hp. unfold Reference.of_length. by rewrite decide_True.
  - intros priv Hp. unfold Reference.of_length. by rewrite decide_True.
  - done.
  - intros priv d _. apply length_pad.
  - intros priv d _. by rewrite decide_True.
Qed.

(** ** Key wrapping *)

(** The checksum stand-in binds every byte. *)
Lemma byte_to_of_nat (n : nat) : n < 256 → Byte.to_nat (byte_of_nat n) = n.
Proof.
  intros Hn. unfold byte_of_nat. rewrite Nat.mod_small by done.
  destruct (Byte.of_nat n) as [x|] eqn:Hx; simpl.
  - by apply Byte.to_of_nat.
  - apply Byte.of_nat_None_iff in Hx. lia.
Qed.

Lemma add_mod_256_neq (x y c : nat) :
  x ≤ 255 → y ≤ 255 → x ≠ y → (x + c) mod 256 ≠ (y + c) mod 256.
Proof.
  intros Hx Hy Hne Heq.
  pose proof (Nat.div_mod_eq (x + c) 256) as H1.
  pose proof (Nat.div_mod_eq (y + c) 256) as H2.
  rewrite Heq in H1.
  set (q1 := (x + c) / 256) in *. set (q2 := (y + c) / 256) in *.
  set (r := (y + c) mod 256) in *. lia.
Qed.

Lemma checksum_bound (s : bytes) : Reference.checksum s < 256.
Proof.
  destruct s; cbn [Reference.checksum]; [lia|].
  apply Nat.mod_upper_bound. lia.
Qed.

Lemma checksum_mutation (s : bytes) (i : nat) (x y : byte) :
  s !! i = Some x → x ≠ y →
  Reference.checksum (<[i := y]> s) ≠ Reference.checksum s.
Proof.
  revert i. induction s as [|a s IH]; intros i Hi Hxy; [done|].
  destruct i as [|i].
  - injection Hi as ->. change (<[0 := y]> (x :: s)) with (y :: s).
    cbn [Reference.checksum].
    assert (Hne : Byte.to_nat x ≠ Byte.to_nat y).
    { intros Heq. apply Hxy.
      pose proof (Byte.of_to_nat x) as Hx. pose proof (Byte.of_to_nat y) as Hy.
      rewrite Heq in Hx. congruence. }
    pose proof (Byte.to_nat_bounded x). pose proof (Byte.to_nat_bounded y).
    apply add_mod_256_neq; lia.
  - pose proof (IH i Hi Hxy) as Hne.
    change (<[S i := y]> (a :: s)) with (a :: <[i := y]> s).
    cbn [Reference.checksum].
    pose proof (checksum_bound s). pose proof (checksum_bound (<[i := y]> s)).
    rewrite !(Nat.add_comm (Byte.to_nat a)).
    apply add_mod_256_neq; [lia|lia|exact Hne].
Qed.

Lemma binding_laws : CryptoLaws Reference.binding_lib.
Proof.
  split; try apply reference_laws.
  - intros priv d _. unfold Ed25519_sign, Reference.binding_lib,
      Reference.sign_checked.
    rewrite length_app, length_pad. simpl. lia.
  - intros priv d _. unfold Ed25519_verify, Ed25519_sign, Ed25519_public_key,
      Reference.binding_lib.
    by rewrite decide_True.
Qed.

Lemma binding_binds : Ed25519Binding Reference.binding_lib.
Proof.
  split; unfold Ed25519_verify, Ed25519_sign, Ed25519_public_key,
    Reference.binding_lib.
  - intros priv d d' _ (i & x & y & Hi & Hxy & ->).
    rewrite decide_False; [done|].
    unfold Reference.sign_checked. intros Heq.
    apply app_inj_tail in Heq as [_ Heq].
    apply (checksum_mutation d i x y Hi Hxy).
    rewrite <- (byte_to_of_nat _ (checksum_bound d)),
      <- (byte_to_of_nat _ (checksum_bound (<[i := y]> d))).
    by rewrite Heq.
  - intros priv d sig' _ (i & x & y & Hi & Hxy & ->).
    rewrite decide_False; [done|].
    intros Heq. apply Hxy.
    assert (Hy : <[i := y]> (Reference.sign_checked priv d) !! i = Some y).
    { apply list_lookup_insert_eq. by eapply lookup_lt_Some. }
    rewrite Heq, Hi in Hy. by injection Hy.
Qed.

Lemma length_urandom (n : nat) (e : entropy) (s : bytes) (e' : entropy) :
  urandom n e = (Return s, e') → length s = n.
Proof. intros [= <- _]. by rewrite length_map, length_seq. Qed.

Section key_exchange.
Context {L : CryptoLib} {Laws : CryptoLaws L}.

(** C3. For every X25519 key pair [(priv, pub)] (a 32-byte private key and
    the public key derived from it) and every session key, [wrap_session_key]
    returns a blob [ephemeral_public(32) || nonce(12) || ciphertext] whose
    slices at offsets 32 and 44 are those three fields, and
    [unwrap_session_key] applied to that blob and [priv] returns the session
    key. *)
Theorem unwrap_wrap_session_key (priv session_key : bytes) (e : entropy) :
  length priv = 32 →
  ∃ ephemeral_public nonce ciphertext,
    let wrapped := ephemeral_public ++ nonce ++ ciphertext in
    (KeyManager.wrap_session_key session_key (X25519_public_key priv) e).1
      = Return wrapped
    ∧ length ephemeral_public = 32 ∧ length nonce = 12
    ∧ take 32 wrapped = ephemeral_public
    ∧ take 12 (drop 32 wrapped) = nonce
    ∧ drop 44 wrapped = ciphertext
    ∧ KeyManager.unwrap_session_key wrapped priv = Return session_key.
Proof.
  intros Hpriv.
  pose proof (x25519_public_length priv Hpriv) as Hpub.
  set (eph := map (tape e) (seq (cursor e) 32)).
  assert (Heph : length eph = 32) by (unfold eph; by rewrite length_map, length_seq).
  set (nonce := map (tape e) (seq (cursor e + 32) 12)).
  assert (Hnonce : length nonce = 12)
    by (unfold nonce; by rewrite length_map, length_seq).
  pose proof (x25519_public_length eph Heph) as Hephpub.
  destruct (x25519_agreement eph priv Heph Hpriv) as (s & Hs1 & Hs2).
  set (derived := HKDF_SHA256_derive 32 None (b "session_key_wrap") s).
  assert (Hderived : length derived = 32) by apply hkdf_length.
  destruct (aesgcm_encrypt_ok derived nonce session_key Hderived Hnonce)
    as [ct Hct].
  exists (X25519_public_key eph), nonce, ct. cbv zeta.
  assert (Htake : take 32 (X25519_public_key eph ++ nonce ++ ct)
                  = X25519_public_key eph).
  { by rewrite <- Hephpub, take_app_length. }
  assert (Hdrop : drop 32 (X25519_public_key eph ++ nonce ++ ct) = nonce ++ ct).
  { by rewrite <- Hephpub, drop_app_length. }
  assert (Hdrop44 : drop 44 (X25519_public_key eph ++ nonce ++ ct) = ct).
  { change 44 with (32 + 12). rewrite <- drop_drop, Hdrop.
    pose proof (drop_app_length nonce ct) as Hd. by rewrite Hnonce in Hd. }
  assert (Htake12 : take 12 (nonce ++ ct) = nonce).
  { pose proof (take_app_length nonce ct) as Ht. by rewrite Hnonce in Ht. }
  repeat split; try done.
  - unfold KeyManager.wrap_session_key, st_bind, lift,
      KeyManager.X25519PrivateKey_generate, urandom, py_ret, st_ret.
    rewrite (x25519_from_public_ok _ Hpub). fold eph. rewrite Hs1.
    fold derived. rewrite (aesgcm_key_ok _ Hderived). cbn [tape cursor fst snd].
    fold nonce. by rewrite Hct.
  - by rewrite Hdrop.
  - unfold KeyManager.unwrap_session_key.
    rewrite Hdrop44, Hdrop, Htake, Htake12.
    rewrite (x25519_from_public_ok _ Hephpub). simpl.
    rewrite (x25519_from_private_ok _ Hpriv). simpl.
    rewrite Hs2. simpl. fold derived.
    rewrite (aesgcm_key_ok _ Hderived). simpl.
    by rewrite (aesgcm_roundtrip _ _ _ _ Hct).
Qed.

End key_exchange.

(** The hypothesis of [unwrap_wrap_session_key] holds, and the theorem
    applies, for the reference instance with the all-zero private key. *)
Lemma unwrap_wrap_session_key_witness :
  length Reference.zero_key = 32
  ∧ ∃ ephemeral_public nonce ciphertext,
      let wrapped := ephemeral_public ++ nonce ++ ciphertext in
      (KeyManager.wrap_session_key (b "0123456789abcdef0123456789abcdef")
         (X25519_public_key Reference.zero_key) Reference.counting).1
        = Return wrapped
      ∧ length ephemeral_public = 32 ∧ length nonce = 12
      ∧ take 32 wrapped = ephemeral_public
      ∧ take 12 (drop 32 wrapped) = nonce
      ∧ drop 44 wrapped = ciphertext
      ∧ KeyManager.unwrap_session_key wrapped Reference.zero_key
        = Return (b "0123456789abcdef0123456789abcdef").
Proof.
  split; [reflexivity|].
  apply (@unwrap_wrap_session_key Reference.lib reference_laws).
  reflexivity.
Defined.

(** ** Signatures *)

Section signatures.
Context {L : CryptoLib}.

(** [verify_signature] never raises: for all byte strings it returns a
    boolean, which is [true] exactly when the public key is accepted and the
    Ed25519 verification of the signature over the data succeeds. *)
Lemma verify_signature_total (data signature public_key : bytes) :
  ∃ ok : bool,
    KeyManager.verify_signature data signature public_key = Return ok
    ∧ (ok = true ↔
       ∃ verifying_key,
         Ed25519PublicKey_from_public_bytes public_key = Return verifying_key
         ∧ Ed25519_verify verifying_key signature data = Return ()).
Proof.
  unfold KeyManager.verify_signature, try_except, any_Exception.
  destruct (Ed25519PublicKey_from_public_bytes public_key) as [vk|x] eqn:Hk;
    simpl.
  - destruct (Ed25519_verify vk signature data) as [[]|x] eqn:Hv; simpl.
    + exists true. split; [done|]. split; [|done]. intros _. by exists vk.
    + exists false. split; [done|]. split; [done|].
      intros (vk' & [= <-] & Hv'). congruence.
  - exists false. split; [done|]. split; [done|].
    intros (vk' & Hk' & _). congruence.
Qed.

(** Whatever exception the library raises is answered with [False]. *)
Lemma verify_signature_rejected (data signature public_key : bytes) (x : exn) :
  Ed25519PublicKey_from_public_bytes public_key = Return public_key →
  Ed25519_verify public_key signature data = Raise x →
  KeyManager.verify_signature data signature public_key = Return false.
Proof.
  intros Hk Hv. unfold KeyManager.verify_signature. rewrite Hk. simpl.
  by rewrite Hv.
Qed.

End signatures.

(** A signature made by [sign_data] verifies under the matching public key. *)
Lemma verify_sign_data {L : CryptoLib} {Laws : CryptoLaws L}
    (data priv : bytes) :
  length priv = 32 →
  ∃ signature,
    KeyManager.sign_data data priv = Return signature
    ∧ KeyManager.verify_signature data signature (Ed25519_public_key priv)
      = Return true.
Proof.
  intros Hp. exists (Ed25519_sign priv data).
  unfold KeyManager.sign_data, KeyManager.verify_signature.
  rewrite (ed25519_from_private_ok _ Hp). simpl. split; [done|].
  rewrite (ed25519_from_public_ok _ (ed25519_public_length _ Hp)). simpl.
  by rewrite (ed25519_sign_verify _ _ Hp).
Qed.

Section signature_gate.
Context {L : CryptoLib} {Laws : CryptoLaws L} {Binding : Ed25519Binding L}.

(** C4. [verify_signature] never raises: for all byte strings it returns a
    boolean, [true] exactly when the public key is accepted and the Ed25519
    verification of the signature over the data succeeds, [false] in every
    other case. For a key pair, the signature [sign_data] returns for [data]
    verifies, and after one byte of the data or one byte of the signature has
    been replaced the answer is [false], not an exception. *)
Theorem verify_signature_gate (private_key data : bytes) :
  (∀ data' signature public_key,
     ∃ ok : bool,
       KeyManager.verify_signature data' signature public_key = Return ok
       ∧ (ok = true ↔
          ∃ verifying_key,
            Ed25519PublicKey_from_public_bytes public_key
            = Return verifying_key
            ∧ Ed25519_verify verifying_key signature data' = Return ()))
  ∧ (length private_key = 32 →
     let public_key := Ed25519_public_key private_key in
     ∃ signature,
       KeyManager.sign_data data private_key = Return signature
       ∧ KeyManager.verify_signature data signature public_key = Return true
       ∧ (∀ data', single_byte_mutation data data' →
            KeyManager.verify_signature data' signature public_key
            = Return false)
       ∧ (∀ signature', single_byte_mutation signature signature' →
            KeyManager.verify_signature data signature' public_key
            = Return false)).
Proof.
  split; [intros; apply verify_signature_total|].
  intros Hp public_key.
  pose proof (ed25519_from_public_ok _ (ed25519_public_length _ Hp)) as Hk.
  exists (Ed25519_sign private_key data). split; [|split; [|split]].
  - unfold KeyManager.sign_data. by rewrite (ed25519_from_private_ok _ Hp).
  - destruct (verify_sign_data data private_key Hp) as (sig & Hs & Hv).
    unfold KeyManager.sign_data in Hs.
    rewrite (ed25519_from_private_ok _ Hp) in Hs. simpl in Hs.
    by injection Hs as <-.
  - intros data' Hm.
    eapply verify_signature_rejected; [exact Hk|].
    by apply ed25519_binds_data.
  - intros signature' Hm.
    eapply verify_signature_rejected; [exact Hk|].
    by apply ed25519_binds_signature.
Qed.

End signature_gate.

(** The signature of [b"HELLO"] under the test key verifies; it verifies
    neither over [b"JELLO"] nor with its last byte cleared. *)
Lemma verify_signature_gate_witness :
  let L := Reference.binding_lib in
  let signature := Reference.sign_checked Reference.zero_key (b "HELLO") in
  @KeyManager.sign_data L (b "HELLO") Reference.zero_key = Return signature
  ∧ @KeyManager.verify_signature L (b "HELLO") signature Reference.zero_key
    = Return true
  ∧ @KeyManager.verify_signature L (b "JELLO") signature Reference.zero_key
    = Return false
  ∧ @KeyManager.verify_signature L (b "HELLO") (<[63 := x00]> signature)
      Reference.zero_key
    = Return false.
Proof.
  intros L signature.
  destruct (proj2 (@verify_signature_gate Reference.binding_lib binding_laws
                     binding_binds Reference.zero_key (b "HELLO")) eq_refl)
    as (sig & Hs & Hv & Hd & Hg).
  injection Hs as <-.
  split; [reflexivity|]. split; [exact Hv|]. split.
  - apply Hd. exists 0, "H"%byte, "J"%byte. by repeat split.
  - apply Hg. exists 63, "t"%byte, x00. by repeat split.
Defined.

(** ** Seed derivation *)

(** C5, as the code has it. Called without a salt, [derive_seed] draws a
    fresh 16-byte salt from the entropy source and returns the 32-byte HKDF
    output alone; the salt is not part of the result. Calling [derive_seed]
    with the same key and that salt given explicitly returns the same seed. *)
Theorem derive_seed_without_salt {L : CryptoLib} {Laws : CryptoLaws L}
    (key : bytes) (e : entropy) :
  let salt := map (tape e) (seq (cursor e) 16) in
  let seed := HKDF_SHA256_derive 32 (Some salt) (b "stego_seed") key in
  length salt = 16
  ∧ KeyManager.derive_seed key None e
    = (Return seed, Entropy (tape e) (cursor e + 16))
  ∧ length seed = 32
  ∧ ∀ e', KeyManager.derive_seed key (Some salt) e' = (Return seed, e').
Proof.
  cbv zeta. split; [by rewrite length_map, length_seq|].
  split; [done|]. split; [apply hkdf_length|done].
Qed.

(** C5, as stated, fails: for the all-zero key and the counting tape the
    value returned has 32 bytes, so it is not the drawn 16-byte salt next to a
    32-byte derived value, in either order. *)
Lemma derive_seed_returns_no_salt :
  let salt := map (tape Reference.counting) (seq 0 16) in
  ∃ result,
    (KeyManager.derive_seed Reference.zero_key None Reference.counting).1
      = Return result
    ∧ ¬ ∃ derived, length derived = 32
                   ∧ (result = salt ++ derived ∨ result = derived ++ salt).
Proof.
  cbv zeta. eexists. split; [reflexivity|].
  intros (derived & Hlen & [H|H]); apply (f_equal length) in H;
    rewrite length_app, Hlen in H; vm_compute in H; lia.
Qed.

Lemma derive_seed_without_salt_witness :
  let salt := map (tape Reference.counting) (seq 0 16) in
  let seed :=
    HKDF_SHA256_derive 32 (Some salt) (b "stego_seed") Reference.zero_key in
  length salt = 16
  ∧ KeyManager.derive_seed Reference.zero_key None Reference.counting
    = (Return seed, Entropy byte_of_nat 16)
  ∧ length seed = 32
  ∧ ∀ e', KeyManager.derive_seed Reference.zero_key (Some salt) e'
          = (Return seed, e').
Proof.
  exact (@derive_seed_without_salt Reference.lib reference_laws
           Reference.zero_key Reference.counting).
Defined.

(** ** The payload pipeline *)

Section payload.
Context {L : CryptoLib} {Laws : CryptoLaws L}.

(** What [prepare_payload] returns for a 32-byte session key: the nonce is the
    next 12 bytes of entropy, the header the 16 bytes after them. *)
Lemma prepare_payload_returns (message session_key : bytes)
    (signing_key : option bytes) (e : entropy) :
  length session_key = 32 →
  (∀ sk, signing_key = Some sk → length sk = 32) →
  let nonce := map (tape e) (seq (cursor e) 12) in
  let header := map (tape e) (seq (cursor e + 12) 16) in
  ∃ encrypted metadata,
    AESGCM_encrypt session_key nonce (gzip_compress message) = Return encrypted
    ∧ PayloadProcessor.prepare_payload message session_key signing_key e
      = (Return (header ++ RSCodec_encode RS_REDUNDANCY
                   (match signing_key with
                    | Some sk => Ed25519_sign sk encrypted ++ encrypted
                    | None => encrypted
                    end), metadata),
         Entropy (tape e) (cursor e + 12 + 16))
    ∧ metadata !! "nonce" = Some (PBytes nonce)
    ∧ metadata !! "version" = Some (PInt 1)
    ∧ metadata !! "has_signature"
      = Some (PBool (bool_decide (is_Some signing_key))).
Proof.
  intros Hk Hsk nonce header.
  assert (Hnonce : length nonce = 12)
    by (unfold nonce; by rewrite length_map, length_seq).
  destruct (aesgcm_encrypt_ok session_key nonce (gzip_compress message)
              Hk Hnonce) as [ct Hct].
  exists ct.
  exists (<["version" := PInt 1]>
            (<["nonce" := PBytes nonce]>
               (<["has_signature" :=
                    PBool (bool_decide (is_Some signing_key))]> ∅))).
  split; [done|].
  unfold PayloadProcessor.prepare_payload, st_bind, lift, urandom, py_ret,
    st_ret.
  fold nonce. rewrite (aesgcm_key_ok _ Hk), Hct.
  destruct signing_key as [sk|].
  - unfold KeyManager.sign_data.
    rewrite (ed25519_from_private_ok sk (Hsk sk eq_refl)).
    cbn [mbind outcome_bind tape cursor]. fold header.
    split; [reflexivity|]. by simplify_map_eq.
  - cbn [tape cursor]. fold header.
    split; [reflexivity|]. by simplify_map_eq.
Qed.

(** C2, what the code does. Whenever [prepare_payload] returns a payload, its
    16-byte header is the 16 bytes of entropy read after the nonce: it does
    not depend on the message, the keys or the nonce, and carries neither the
    version, nor the signature flag, nor the nonce, nor zero padding. *)
Theorem prepare_payload_header_is_entropy (message session_key : bytes)
    (signing_key : option bytes) (e e' : entropy) (payload : bytes)
    (metadata : gmap string pyval) :
  PayloadProcessor.prepare_payload message session_key signing_key e
    = (Return (payload, metadata), e') →
  take HEADER_SIZE payload = map (tape e) (seq (cursor e + 12) 16)
  ∧ metadata !! "nonce" = Some (PBytes (map (tape e) (seq (cursor e) 12))).
Proof.
  unfold PayloadProcessor.prepare_payload, st_bind, lift, urandom, py_ret,
    st_ret.
  destruct (AESGCM session_key) as [k|x]; [|done].
  destruct (AESGCM_encrypt k _ _) as [ct|x]; [|done].
  destruct (match signing_key with Some _ => _ | None => _ end)
    as [sig|x]; [|done].
  cbn [tape cursor]. intros [= <- <- _].
  split; [|by simplify_map_eq].
  reflexivity.
Qed.

(** C1, what the code does. For a 32-byte session key and no signing key,
    [prepare_payload] returns a payload, and [extract_payload] decrypts it
    under the first 12 header bytes instead of the nonce used to encrypt;
    whenever AES-GCM rejects the ciphertext under that other nonce, extraction
    raises the decryption error instead of returning the message. *)
Theorem extract_prepared_payload_wrong_nonce (message session_key : bytes)
    (e : entropy) :
  length session_key = 32 →
  let nonce := map (tape e) (seq (cursor e) 12) in
  let header := map (tape e) (seq (cursor e + 12) 16) in
  (∀ ct, AESGCM_encrypt session_key nonce (gzip_compress message) = Return ct →
         ∃ x, AESGCM_decrypt session_key (take 12 header) ct = Raise x) →
  ∃ payload metadata e',
    PayloadProcessor.prepare_payload message session_key None e
      = (Return (payload, metadata), e')
    ∧ take 16 payload = header
    ∧ PayloadProcessor.extract_payload payload session_key None
      = Raise (ValueError
                 "Decryption failed - incorrect key or corrupted data").
Proof.
  intros Hk nonce header Hreject.
  destruct (prepare_payload_returns message session_key None e Hk)
    as (ct & md & Hct & Hprep & _); [done|].
  fold nonce header in Hct, Hprep.
  destruct (Hreject ct Hct) as [x Hx].
  assert (Hh : length header = 16)
    by (unfold header; by rewrite length_map, length_seq).
  assert (Htake : take 16 (header ++ RSCodec_encode RS_REDUNDANCY ct) = header).
  { pose proof (take_app_length header (RSCodec_encode RS_REDUNDANCY ct)) as Ht.
    by rewrite Hh in Ht. }
  assert (Hdrop : drop 16 (header ++ RSCodec_encode RS_REDUNDANCY ct)
                  = RSCodec_encode RS_REDUNDANCY ct).
  { pose proof (drop_app_length header (RSCodec_encode RS_REDUNDANCY ct)) as Hd.
    by rewrite Hh in Hd. }
  eexists _, md, _. split; [exact Hprep|]. split; [exact Htake|].
  unfold PayloadProcessor.extract_payload, HEADER_SIZE.
  rewrite Htake, Hdrop, rs_roundtrip. cbn [try_except mbind outcome_bind].
  rewrite (aesgcm_key_ok _ Hk). cbn [mbind outcome_bind].
  by rewrite Hx.
Qed.

End payload.

Lemma extract_prepared_payload_wrong_nonce_witness :
  length Reference.zero_key = 32
  ∧ ∃ payload metadata e',
      PayloadProcessor.prepare_payload (b "HELLO") Reference.zero_key None
        Reference.counting = (Return (payload, metadata), e')
      ∧ take 16 payload = map byte_of_nat (seq 12 16)
      ∧ PayloadProcessor.extract_payload payload Reference.zero_key None
        = Raise (ValueError
                   "Decryption failed - incorrect key or corrupted data").
Proof.
  split; [reflexivity|].
  apply (@extract_prepared_payload_wrong_nonce Reference.lib reference_laws
           (b "HELLO") Reference.zero_key Reference.counting).
  - reflexivity.
  - intros ct [= <-]. eexists. vm_compute. reflexivity.
Defined.

(** The header of that payload: byte 0 is [0x0c], not the version 1; byte 1
    is [0x0d], whose bit 0 is set although nothing was signed; bytes 2 to 13
    are not the nonce [00 .. 0b]; bytes 14 and 15 are not zero. *)
Lemma prepare_payload_header_is_entropy_witness :
  ∃ payload metadata e',
    PayloadProcessor.prepare_payload (b "HELLO") Reference.zero_key None
      Reference.counting = (Return (payload, metadata), e')
    ∧ take HEADER_SIZE payload
      = [x0c; x0d; x0e; x0f; x10; x11; x12; x13;
         x14; x15; x16; x17; x18; x19; x1a; x1b]
    ∧ metadata !! "nonce"
      = Some (PBytes [x00; x01; x02; x03; x04; x05; x06; x07;
                      x08; x09; x0a; x0b]).
Proof.
  destruct (@prepare_payload_returns Reference.lib reference_laws
              (b "HELLO") Reference.zero_key None Reference.counting)
    as (ct & md & _ & Hprep & _); [reflexivity|done|].
  eexists _, md, _. split; [exact Hprep|].
  exact (@prepare_payload_header_is_entropy Reference.lib _ _ _ _ _ _ _ Hprep).
Defined.

Section signature_presence.
Context {L : CryptoLib}.

(** C9, what the code does. Whether the first 64 bytes of the decoded block
    are split off as a signature is decided by the [verify_key] argument and
    not by the header: a payload that extracts to a message without a verify
    key (its whole decoded block is the ciphertext) is, whatever its header
    byte 1, cut at offset 64 when a verify key is passed, and rejected with
    the signature error when those pieces do not verify. *)
Theorem extract_payload_splits_by_verify_key
    (payload session_key verify_key block message : bytes) :
  RSCodec_decode RS_REDUNDANCY (drop HEADER_SIZE payload) = Return block →
  PayloadProcessor.extract_payload payload session_key None = Return message →
  KeyManager.verify_signature (drop 64 block) (take 64 block) verify_key
    = Return false →
  PayloadProcessor.extract_payload payload session_key (Some verify_key)
    = Raise (ValueError "Signature verification failed").
Proof.
  intros Hdec _ Hver. unfold PayloadProcessor.extract_payload.
  rewrite Hdec. cbn [try_except mbind outcome_bind].
  by rewrite Hver.
Qed.

(** The part of C9 the code satisfies: with a verify key, a failed
    verification raises the signature error whatever the session key is, so
    before any decryption. *)
Lemma extract_payload_verifies_before_decrypting
    (payload session_key1 session_key2 verify_key block : bytes) :
  RSCodec_decode RS_REDUNDANCY (drop HEADER_SIZE payload) = Return block →
  KeyManager.verify_signature (drop 64 block) (take 64 block) verify_key
    = Return false →
  PayloadProcessor.extract_payload payload session_key1 (Some verify_key)
    = Raise (ValueError "Signature verification failed")
  ∧ PayloadProcessor.extract_payload payload session_key2 (Some verify_key)
    = Raise (ValueError "Signature verification failed").
Proof.
  intros Hdec Hver. unfold PayloadProcessor.extract_payload.
  rewrite Hdec. cbn [try_except mbind outcome_bind].
  by rewrite Hver.
Qed.

End signature_presence.

(** An unsigned payload for [b"HELLO"] with an all-zero header (flag bit 0
    clear): it extracts without a verify key and is rejected with one. *)
Lemma extract_payload_splits_by_verify_key_witness :
  let block := Reference.magic ++ b "HELLO"
               ++ Reference.tag Reference.zero_key (replicate 12 x00) in
  let payload := replicate 16 x00 ++ RSCodec_encode RS_REDUNDANCY block in
  (∃ metadata e',
     PayloadProcessor.prepare_payload (b "HELLO") Reference.zero_key None
       Reference.zeros = (Return (payload, metadata), e'))
  ∧ (λ flags, Z.testbit (byte_to_Z flags) 0) <$> payload !! 1 = Some false
  ∧ PayloadProcessor.extract_payload payload Reference.zero_key None
    = Return (b "HELLO")
  ∧ PayloadProcessor.extract_payload payload Reference.zero_key
      (Some Reference.zero_key)
    = Raise (ValueError "Signature verification failed").
Proof.
  cbv zeta. split; [|split; [reflexivity|split; [reflexivity|]]].
  - destruct (@prepare_payload_returns Reference.lib reference_laws
                (b "HELLO") Reference.zero_key None Reference.zeros)
      as (ct & md & Hct & Hprep & _); [reflexivity|done|].
    injection Hct as <-. exists md. eexists. exact Hprep.
  - eapply (@extract_payload_splits_by_verify_key Reference.lib).
    + vm_compute. reflexivity.
    + vm_compute. reflexivity.
    + vm_compute. reflexivity.
Defined.

(** ** Quantization-index modulation *)

Section qim.
Import ImageSteganography.
Local Open Scope Q_scope.

Lemma Qfloor_unique (x : Q) (k : Z) :
  inject_Z k <= x → x < inject_Z (k + 1) → Qfloor x = k.
Proof.
  intros Hlo Hhi.
  pose proof (Qfloor_le x) as Hf1. pose proof (Qlt_floor x) as Hf2.
  assert (H1 : (Qfloor x < k + 1)%Z) by (rewrite Zlt_Qlt; lra).
  assert (H2 : (k < Qfloor x + 1)%Z) by (rewrite Zlt_Qlt; lra).
  lia.
Qed.

Lemma py_round_comp (x y : Q) : x == y → py_round x = py_round y.
Proof.
  intros Hxy. unfold py_round.
  rewrite (Qfloor_comp _ _ Hxy).
  assert (Hc : (x - inject_Z (Qfloor y) ?= 1 # 2)
               = (y - inject_Z (Qfloor y) ?= 1 # 2)).
  { apply Qcompare_comp; [by rewrite Hxy|reflexivity]. }
  by rewrite Hc.
Qed.

Lemma py_round_integer (x : Q) (k : Z) : x == inject_Z k → py_round x = k.
Proof.
  intros Hx. rewrite (py_round_comp _ _ Hx). unfold py_round.
  rewrite Qfloor_Z.
  assert (Hc : (inject_Z k - inject_Z k ?= 1 # 2) = Lt).
  { apply (proj1 (Qlt_alt _ _)). lra. }
  by rewrite Hc.
Qed.

Lemma py_round_half (x : Q) (k : Z) :
  x == inject_Z k + (1 # 2) → py_round x = k ∨ py_round x = (k + 1)%Z.
Proof.
  intros Hx. unfold py_round.
  assert (Hf : Qfloor x = k).
  { apply Qfloor_unique; [lra|]. rewrite inject_Z_plus. change (inject_Z 1) with 1. lra. }
  rewrite Hf.
  assert (Hc : (x - inject_Z k ?= 1 # 2) = Eq).
  { apply (proj1 (Qeq_alt _ _)). lra. }
  rewrite Hc. destruct (Z.even k); auto.
Qed.

Lemma inject_Z_succ (k : Z) : inject_Z (k + 1) == inject_Z k + 1.
Proof. by rewrite inject_Z_plus. Qed.

Lemma inject_Z_pred (k : Z) : inject_Z (k - 1) == inject_Z k - 1.
Proof. unfold Z.sub. by rewrite inject_Z_plus, inject_Z_opp. Qed.

(** [round] moves its argument by at most one half. *)
Lemma py_round_error (x : Q) :
  - (1 # 2) <= x - inject_Z (py_round x) ∧ x - inject_Z (py_round x) <= 1 # 2.
Proof.
  pose proof (Qfloor_le x) as Hlo. pose proof (Qlt_floor x) as Hhi.
  rewrite inject_Z_succ in Hhi.
  unfold py_round.
  destruct (x - inject_Z (Qfloor x) ?= 1 # 2) eqn:Hc.
  - apply Qeq_alt in Hc.
    destruct (Z.even (Qfloor x)); [lra|].
    rewrite inject_Z_succ. lra.
  - apply Qlt_alt in Hc. lra.
  - apply Qgt_alt in Hc.
    rewrite inject_Z_succ. lra.
Qed.

End qim.

Example py_round_ties_to_even :
  ImageSteganography.py_round (1 # 2) = 0%Z
  ∧ ImageSteganography.py_round (3 # 2) = 2%Z
  ∧ ImageSteganography.py_round (5 # 2) = 2%Z
  ∧ ImageSteganography.py_round (- (3 # 2)) = (-2)%Z
  ∧ ImageSteganography.py_round (7 # 5) = 1%Z.
Proof. repeat split. Qed.

(** ** QIM in double precision *)

Section float_qim.
Import Float64 ImageSteganography.
Context {F : FloatLib} {Laws : FloatLaws F}.
Local Open Scope Q_scope.

Lemma is_value_proper (x : float64) (q q' : Q) :
  is_value x q → q == q' → is_value x q'.
Proof. intros (r & Hr & Heq) Hq. exists r. split; [done|]. by rewrite Heq. Qed.

Lemma round_float_value (x : float64) (q : Q) :
  is_value x q → round_float x = Some (py_round q).
Proof.
  intros (r & Hr & Heq). unfold round_float. rewrite Hr. simpl.
  by rewrite (py_round_comp _ _ Heq).
Qed.

Lemma float_of_int_exact (z : Z) :
  (Z.abs z ≤ 2 ^ 53)%Z →
  ∃ f, float_of_int z = Some f ∧ is_value f (inject_Z z).
Proof.
  intros Hz. pose proof (float_of_Z_exact z Hz) as Hv.
  exists (float_of_Z z). split; [|done].
  unfold float_of_int. destruct Hv as (r & -> & _). done.
Qed.

Lemma is_value_20 : is_value (float_of_Z 20) 20.
Proof. apply (float_of_Z_exact 20). lia. Qed.

Lemma half_integer_Z (k : Z) :
  (Z.abs k ≤ 2 ^ 52)%Z → half_integer (inject_Z k).
Proof.
  intros Hk. exists (2 * k)%Z. split; [lia|].
  unfold Qeq, inject_Z. simpl. lia.
Qed.

Lemma half_integer_half (k : Z) :
  (Z.abs k < 2 ^ 52)%Z → half_integer (inject_Z k + (1 # 2)).
Proof.
  intros Hk. exists (2 * k + 1)%Z. split; [lia|].
  unfold Qeq, inject_Z, Qplus. simpl. lia.
Qed.

Lemma is_value_delta_half :
  is_value (fdiv (float_of_Z 20) (float_of_Z 2)) 10.
Proof.
  assert (H2 : is_value (float_of_Z 2) 2) by (apply (float_of_Z_exact 2); lia).
  eapply is_value_proper.
  - apply (fdiv_exact _ _ 20 2 is_value_20 H2); [done|].
    exists 20%Z. split; [lia|reflexivity].
  - reflexivity.
Qed.

Lemma half_integer_proper (q q' : Q) :
  q == q' → half_integer q → half_integer q'.
Proof. intros Hq (k & Hk & Heq). exists k. split; [done|]. by rewrite <- Hq. Qed.

Lemma inject_Z_20 (n : Z) : inject_Z (20 * n) == 20 * inject_Z n.
Proof. by rewrite inject_Z_mult. Qed.

Lemma rounding_bound_small (q : Q) :
  Qabs q <= 2 ^ 36 → rounding_bound q <= 1 # 100000.
Proof.
  intros Hq. unfold rounding_bound.
  assert (Hu : 0 <= unit_roundoff) by (vm_compute; discriminate).
  pose proof (Qmult_le_compat_r _ _ _ Hq Hu) as Hm.
  assert (Hc : 2 ^ 36 * unit_roundoff + half_least_subnormal <= 1 # 100000)
    by (vm_compute; discriminate).
  set (p := Qabs q * unit_roundoff) in *.
  set (p' := 2 ^ 36 * unit_roundoff) in *.
  set (t := half_least_subnormal) in *. lra.
Qed.

(** A float on the lattice of multiples of 20 reads back as 0. *)
Lemma extract_bit_float_lattice0 (v : float64) (n : Z) :
  (Z.abs n ≤ 2 ^ 47)%Z → is_value v (20 * inject_Z n) →
  extract_bit_float v = Some 0%Z.
Proof.
  intros Hn Hv.
  assert (Hq : is_value (fdiv v (float_of_Z 20)) (inject_Z n)).
  { apply (is_value_proper _ (20 * inject_Z n / 20)); [|field].
    apply fdiv_exact; [done|apply is_value_20|done|].
    apply (half_integer_proper (inject_Z n)); [field|].
    apply half_integer_Z. lia. }
  assert (Hy : is_value (fadd (fdiv v (float_of_Z 20)) half)
                 (inject_Z n + (1 # 2))).
  { apply fadd_exact; [done|apply half_exact|].
    apply half_integer_half. lia. }
  unfold extract_bit_float.
  rewrite (round_float_value _ _ Hq), (round_float_value _ _ Hy).
  rewrite (py_round_integer (inject_Z n) n) by reflexivity.
  cbn [mbind option_bind].
  set (m := py_round (inject_Z n + (1 # 2))).
  assert (Hm : m = n ∨ m = (n + 1)%Z) by (by apply py_round_half).
  clearbody m.
  destruct (float_of_int_exact (20 * m)) as (f1 & -> & Hf1); [lia|].
  destruct (float_of_int_exact (20 * n)) as (f0 & -> & Hf0); [lia|].
  cbn [mbind option_bind]. f_equal.
  assert (Hq1 : is_value (fsub f1 (fdiv (float_of_Z 20) (float_of_Z 2)))
                  (inject_Z (20 * m) - 10)).
  { apply fsub_exact; [done|apply is_value_delta_half|].
    apply (half_integer_proper (inject_Z (20 * m - 10))).
    - qz.
    - apply half_integer_Z. lia. }
  assert (Hd0 : is_value (fabs (fsub v f0))
                  (Qabs (20 * inject_Z n - inject_Z (20 * n)))).
  { apply fabs_exact, fsub_exact; [done..|].
    apply (half_integer_proper (inject_Z 0)).
    - qz.
    - apply half_integer_Z. lia. }
  assert (Hd1 : is_value
                  (fabs (fsub v (fsub f1 (fdiv (float_of_Z 20) (float_of_Z 2)))))
                  (Qabs (20 * inject_Z n - (inject_Z (20 * m) - 10)))).
  { apply fabs_exact, fsub_exact; [done..|].
    apply (half_integer_proper (inject_Z (20 * n - 20 * m + 10))).
    - qz.
    - apply half_integer_Z. lia. }
  pose proof (fltb_exact _ _ _ _ Hd0 Hd1) as Hlt.
  destruct (fltb _ _); [done|exfalso].
  assert (Hgoal : Qabs (20 * inject_Z n - inject_Z (20 * n))
                  < Qabs (20 * inject_Z n - (inject_Z (20 * m) - 10))).
  { assert (E0 : 20 * inject_Z n - inject_Z (20 * n) == 0)
      by (rewrite inject_Z_20; ring).
    rewrite E0. change (Qabs 0) with 0.
    destruct Hm as [-> | ->].
    - assert (E1 : 20 * inject_Z n - (inject_Z (20 * n) - 10) == 10)
        by (rewrite inject_Z_20; ring).
      rewrite E1. reflexivity.
    - assert (E1 : 20 * inject_Z n - (inject_Z (20 * (n + 1)) - 10) == - (10))
        by (rewrite inject_Z_20, inject_Z_succ; ring).
      rewrite E1. reflexivity. }
  apply Hlt in Hgoal. done.
Qed.

(** A float on the lattice offset by 10 reads back as 1. *)
Lemma extract_bit_float_lattice1 (v : float64) (m : Z) :
  (Z.abs m ≤ 2 ^ 47)%Z → is_value v (20 * inject_Z m - 10) →
  extract_bit_float v = Some 1%Z.
Proof.
  intros Hm Hv.
  assert (Hq : is_value (fdiv v (float_of_Z 20))
                 (inject_Z (m - 1) + (1 # 2))).
  { apply (is_value_proper _ ((20 * inject_Z m - 10) / 20));
      [|rewrite inject_Z_pred; field].
    apply fdiv_exact; [done|apply is_value_20|done|].
    apply (half_integer_proper (inject_Z (m - 1) + (1 # 2)));
      [rewrite inject_Z_pred; field|].
    apply half_integer_half. lia. }
  assert (Hy : is_value (fadd (fdiv v (float_of_Z 20)) half) (inject_Z m)).
  { apply (is_value_proper _ (inject_Z (m - 1) + (1 # 2) + (1 # 2)));
      [|rewrite inject_Z_pred; ring].
    apply fadd_exact; [done|apply half_exact|].
    apply (half_integer_proper (inject_Z m)); [rewrite inject_Z_pred; ring|].
    apply half_integer_Z. lia. }
  unfold extract_bit_float.
  rewrite (round_float_value _ _ Hq), (round_float_value _ _ Hy).
  rewrite (py_round_integer (inject_Z m) m) by reflexivity.
  cbn [mbind option_bind].
  set (n := py_round (inject_Z (m - 1) + (1 # 2))).
  assert (Hn : n = (m - 1)%Z ∨ n = (m - 1 + 1)%Z) by (by apply py_round_half).
  clearbody n.
  destruct (float_of_int_exact (20 * m)) as (f1 & -> & Hf1); [lia|].
  destruct (float_of_int_exact (20 * n)) as (f0 & -> & Hf0); [lia|].
  cbn [mbind option_bind]. f_equal.
  assert (Hq1 : is_value (fsub f1 (fdiv (float_of_Z 20) (float_of_Z 2)))
                  (inject_Z (20 * m) - 10)).
  { apply fsub_exact; [done|apply is_value_delta_half|].
    apply (half_integer_proper (inject_Z (20 * m - 10))).
    - qz.
    - apply half_integer_Z. lia. }
  assert (Hd0 : is_value (fabs (fsub v f0))
                  (Qabs (20 * inject_Z m - 10 - inject_Z (20 * n)))).
  { apply fabs_exact, fsub_exact; [done..|].
    apply (half_integer_proper (inject_Z (20 * m - 10 - 20 * n))).
    - qz.
    - apply half_integer_Z. lia. }
  assert (Hd1 : is_value
                  (fabs (fsub v (fsub f1 (fdiv (float_of_Z 20) (float_of_Z 2)))))
                  (Qabs (20 * inject_Z m - 10 - (inject_Z (20 * m) - 10)))).
  { apply fabs_exact, fsub_exact; [done..|].
    apply (half_integer_proper (inject_Z 0)).
    - qz.
    - apply half_integer_Z. lia. }
  pose proof (fltb_exact _ _ _ _ Hd0 Hd1) as Hlt.
  destruct (fltb _ _); [exfalso|done].
  assert (Hgoal : Qabs (20 * inject_Z m - 10 - inject_Z (20 * n))
                  < Qabs (20 * inject_Z m - 10 - (inject_Z (20 * m) - 10)))
    by (by apply Hlt).
  assert (E1 : 20 * inject_Z m - 10 - (inject_Z (20 * m) - 10) == 0)
    by (rewrite inject_Z_20; ring).
  rewrite E1 in Hgoal. change (Qabs 0) with 0 in Hgoal.
  pose proof (Qabs_nonneg (20 * inject_Z m - 10 - inject_Z (20 * n))). lra.
Qed.

Lemma fdiv_20_near (c : float64) (a : Q) :
  is_value c a → Qabs a <= 2 ^ 40 →
  ∃ r, is_value (fdiv c (float_of_Z 20)) r
       ∧ - (1 # 100000) <= r - a * (1 # 20) <= 1 # 100000
       ∧ - 2 ^ 36 + 1 <= a * (1 # 20) <= 2 ^ 36 - 1.
Proof.
  intros Hc Ha. apply Qabs_Qle_condition in Ha as [Ha1 Ha2].
  assert (Hx : a / 20 == a * (1 # 20)) by field.
  assert (Hb : Qabs (a / 20) <= 2 ^ 36).
  { rewrite Hx. apply Qabs_Qle_condition. lra. }
  destruct (fdiv_near c (float_of_Z 20) a 20 Hc is_value_20) as (r & Hr & He);
    [done| |].
  { eapply Qle_trans; [exact Hb|]. vm_compute. discriminate. }
  exists r. split; [done|].
  pose proof (rounding_bound_small _ Hb) as Hs.
  assert (He' : Qabs (r - a / 20) <= 1 # 100000) by (eapply Qle_trans; done).
  rewrite Hx in He'. apply Qabs_Qle_condition in He'. split; [done|lra].
Qed.

Lemma Z_bounds_of_Q (n : Z) (q : Q) :
  - 2 ^ 37 <= q <= 2 ^ 37 → - (1 # 2) <= q - inject_Z n <= 1 # 2 →
  (Z.abs n ≤ 2 ^ 47)%Z.
Proof.
  intros Hq Hn.
  assert (H1 : (n ≤ 2 ^ 38)%Z).
  { rewrite Zle_Qle. assert (inject_Z (2 ^ 38) == 2 ^ 38) by reflexivity. lra. }
  assert (H2 : (- 2 ^ 38 ≤ n)%Z).
  { rewrite Zle_Qle. assert (inject_Z (- 2 ^ 38) == - 2 ^ 38) by reflexivity.
    lra. }
  lia.
Qed.

(** C7, as the code has it. For every finite [float64] coefficient [c] of
    magnitude at most [2^40] and every bit [b], the embedding loop stores a
    float [v] that lies on the lattice for [b] (a multiple of 20 for bit 0, a
    multiple of 20 less 10 for bit 1) within [10 + 1/1000] of [c], which is
    half a step and the rounding of [c / 20]; and the extraction rule reads
    [v] back as [b]. *)
Theorem qim_roundtrip_bounded (bit : Z) (c : float64) (a : Q) :
  value c = Some a → Qabs a <= 2 ^ 40 → bit = 0%Z ∨ bit = 1%Z →
  ∃ v k,
    embed_coeff_float bit c = Some v
    ∧ is_value v (20 * inject_Z k - 10 * inject_Z bit)
    ∧ Qabs (20 * inject_Z k - 10 * inject_Z bit - a) <= 10 + (1 # 1000)
    ∧ extract_bit_float v = Some bit.
Proof.
  intros Hv Ha Hbit.
  assert (Hc : is_value c a) by (by exists a).
  destruct (fdiv_20_near c a Hc Ha) as (r & Hr & Her & Hx).
  set (x := a * (1 # 20)) in *.
  assert (Hax : a == 20 * x) by (unfold x; ring).
  destruct Hbit as [-> | ->].
  - set (n := py_round r).
    pose proof (py_round_error r) as Hn. fold n in Hn.
    assert (Hnb : (Z.abs n ≤ 2 ^ 47)%Z).
    { apply (Z_bounds_of_Q n r); [lra|done]. }
    destruct (float_of_int_exact (20 * n)) as (v & Hf & Hfv); [lia|].
    assert (Hlat : is_value v (20 * inject_Z n)).
    { apply (is_value_proper _ _ _ Hfv). qz. }
    exists v, n. split; [|split; [|split]].
    + unfold embed_coeff_float. rewrite decide_True by done.
      rewrite (round_float_value _ _ Hr). exact Hf.
    + apply (is_value_proper _ _ _ Hlat). change (inject_Z 0) with 0. ring.
    + apply Qabs_Qle_condition. change (inject_Z 0) with 0.
      set (k := inject_Z n) in *. lra.
    + by apply (extract_bit_float_lattice0 v n).
  - destruct (fadd_near (fdiv c (float_of_Z 20)) half r (1 # 2) Hr half_exact)
      as (y & Hy & Hey).
    { eapply (Qle_trans _ (2 ^ 36)); [|vm_compute; discriminate].
      apply Qabs_Qle_condition. lra. }
    assert (Hyb : Qabs (r + (1 # 2)) <= 2 ^ 36)
      by (apply Qabs_Qle_condition; lra).
    pose proof (rounding_bound_small _ Hyb) as Hs.
    assert (Hey' : Qabs (y - (r + (1 # 2))) <= 1 # 100000)
      by (eapply Qle_trans; done).
    apply Qabs_Qle_condition in Hey'.
    set (m := py_round y).
    pose proof (py_round_error y) as Hm. fold m in Hm.
    assert (Hmb : (Z.abs m ≤ 2 ^ 47)%Z).
    { apply (Z_bounds_of_Q m y); [lra|done]. }
    destruct (float_of_int_exact (20 * m)) as (f1 & Hf & Hfv); [lia|].
    assert (Hlat : is_value (fsub f1 (fdiv (float_of_Z 20) (float_of_Z 2)))
                     (20 * inject_Z m - 10)).
    { apply (is_value_proper _ (inject_Z (20 * m) - 10)); [|qz].
      apply fsub_exact; [done|apply is_value_delta_half|].
      apply (half_integer_proper (inject_Z (20 * m - 10))); [qz|].
      apply half_integer_Z. lia. }
    eexists _, m. split; [|split; [|split]].
    + unfold embed_coeff_float. rewrite decide_False by done.
      rewrite (round_float_value _ _ Hy). fold m. cbn [mbind option_bind].
      rewrite Hf. reflexivity.
    + apply (is_value_proper _ _ _ Hlat). change (inject_Z 1) with 1. ring.
    + apply Qabs_Qle_condition. change (inject_Z 1) with 1.
      set (k := inject_Z m) in *. lra.
    + by apply (extract_bit_float_lattice1 _ m).
Qed.
End float_qim.

Lemma rounding_bound_diag (q : Q) :
  (Qabs (q - q) <= Float64.rounding_bound q)%Q.
Proof.
  assert (E : (q - q == 0)%Q) by ring. rewrite E. change (Qabs 0) with 0%Q.
  unfold Float64.rounding_bound.
  pose proof (Qabs_nonneg q).
  assert (0 <= Float64.unit_roundoff)%Q by (vm_compute; discriminate).
  assert (0 <= Float64.half_least_subnormal)%Q by (vm_compute; discriminate).
  assert (0 <= Qabs q * Float64.unit_roundoff)%Q
    by (by apply Qmult_le_0_compat).
  set (p := (Qabs q * Float64.unit_roundoff)%Q) in *.
  set (t := Float64.half_least_subnormal) in *. lra.
Qed.

Lemma exact_laws : Float64.FloatLaws Float64.exact.
Proof.
  split; unfold Float64.is_value.
  - intros z _. by exists (inject_Z z).
  - by exists (1 # 2)%Q.
  - intros x y a c (? & [= <-] & Ha) (? & [= <-] & Hc) _ _.
    exists (x / y)%Q. split; [done|]. by rewrite Ha, Hc.
  - intros x y a c (? & [= <-] & Ha) (? & [= <-] & Hc) _.
    exists (x + y)%Q. split; [done|]. by rewrite Ha, Hc.
  - intros x y a c (? & [= <-] & Ha) (? & [= <-] & Hc) _.
    exists (x - y)%Q. split; [done|]. by rewrite Ha, Hc.
  - intros x y a c (? & [= <-] & Ha) (? & [= <-] & Hc) _ _.
    exists (a / c)%Q. split; [|apply rounding_bound_diag].
    exists (x / y)%Q. split; [done|]. by rewrite Ha, Hc.
  - intros x y a c (? & [= <-] & Ha) (? & [= <-] & Hc) _.
    exists (a + c)%Q. split; [|apply rounding_bound_diag].
    exists (x + y)%Q. split; [done|]. by rewrite Ha, Hc.
  - intros x a (? & [= <-] & Ha). exists (Qabs x). split; [done|].
    by rewrite Ha.
  - intros x y a c (? & [= <-] & Ha) (? & [= <-] & Hc).
    change (Float64.Qltb x y = true ↔ (a < c)%Q).
    unfold Float64.Qltb. destruct (Qlt_le_dec x y) as [Hlt|Hge].
    + split; [|done]. intros _. by rewrite <- Ha, <- Hc.
    + split; [done|]. intros Hlt. rewrite <- Ha, <- Hc in Hlt. lra.
Qed.

(** The coefficient 18.5 and bit 1, in arithmetic without rounding. *)
Lemma qim_roundtrip_bounded_witness :
  ∃ v k,
    ImageSteganography.embed_coeff_float (F := Float64.exact) 1 (37 # 2)%Q
    = Some v
    ∧ @Float64.is_value Float64.exact v (20 * inject_Z k - 10 * inject_Z 1)%Q
    ∧ (Qabs (20 * inject_Z k - 10 * inject_Z 1 - (37 # 2)) <= 10 + (1 # 1000))%Q
    ∧ ImageSteganography.extract_bit_float (F := Float64.exact) v = Some 1%Z.
Proof.
  apply (@qim_roundtrip_bounded Float64.exact exact_laws 1 (37 # 2)%Q (37 # 2)%Q).
  - reflexivity.
  - vm_compute. discriminate.
  - by right.
Defined.

(** C7, as stated, fails in binary64: the round trip fails for large
    coefficients, and the value stored is not always the nearest lattice
    point. The float [2^60 + 2^8]
    with bit 0 is stored unchanged (the floats around it are 256 apart) and
    read back as 1, both distances being 0. The float [2^-70] with bit 1 is
    stored as [-10], at distance [10 + 2^-70], although the offset-lattice
    point [10] is nearer: [2^-70 / 20 + 0.5] rounds to [0.5]. *)
Lemma qim_roundtrip_large_coefficient :
  let c := @Float64.float_of_Z Float64.binary64 (2 ^ 60 + 2 ^ 8) in
  let d := Float64.fdiv (Float64.float_of_Z 1) (Float64.float_of_Z (2 ^ 70)) in
  Float64.value c = Some (inject_Z (2 ^ 60 + 2 ^ 8))
  ∧ Float64.value <$> ImageSteganography.embed_coeff_float 0 c
    = Some (Some (inject_Z (2 ^ 60 + 2 ^ 8)))
  ∧ ImageSteganography.embed_coeff_float 0 c
    ≫= ImageSteganography.extract_bit_float = Some 1%Z
  ∧ Float64.value d = Some (1 # 2 ^ 70)%Q
  ∧ Float64.value <$> ImageSteganography.embed_coeff_float 1 d
    = Some (Some (- (10))%Q).
Proof. vm_compute. repeat split. Qed.

(** Within the bound binary64 agrees with the theorem. The coefficient 18.5
    is stored as 20 for bit 0 and as 10 for bit 1; the tie 10 is stored as 0
    and as 10; [2^40] is stored as [2^40 + 4] and as [2^40 - 6]. Every stored
    value reads back as the bit. *)
Example qim_binary64_samples :
  let roundtrip bit c :=
    v ← ImageSteganography.embed_coeff_float (F := Float64.binary64) bit c;
    bit' ← ImageSteganography.extract_bit_float v;
    q ← Float64.value v;
    Some (q, bit') in
  let c1 := Float64.fdiv (Float64.float_of_Z 37) (Float64.float_of_Z 2) in
  let c2 := Float64.float_of_Z 10 in
  let c3 := Float64.float_of_Z (2 ^ 40) in
  Float64.value c1 = Some (37 # 2)%Q
  ∧ roundtrip 0%Z c1 = Some (20%Q, 0%Z)
  ∧ roundtrip 1%Z c1 = Some (10%Q, 1%Z)
  ∧ roundtrip 0%Z c2 = Some (0%Q, 0%Z)
  ∧ roundtrip 1%Z c2 = Some (10%Q, 1%Z)
  ∧ roundtrip 0%Z c3 = Some (inject_Z (2 ^ 40 + 4), 0%Z)
  ∧ roundtrip 1%Z c3 = Some (inject_Z (2 ^ 40 - 6), 1%Z).
Proof. vm_compute. repeat split. Qed.


(** ** Embedding into the coefficients *)

Section embedding.
Import ImageSteganography.

(** The state of [flat_coeffs] after the first [n] iterations of the loop. *)
Lemma embed_loop_spec (payload_bits : list Z) (flat : list Q) (n : nat) :
  n ≤ length payload_bits → n ≤ length flat →
  let r := foldl (embed_iteration payload_bits) flat (seq 0 n) in
  length r = length flat
  ∧ (∀ i bit c, i < n → payload_bits !! i = Some bit → flat !! i = Some c →
       r !! i = Some (embed_coeff bit c))
  ∧ (∀ i, n ≤ i → r !! i = flat !! i).
Proof.
  induction n as [|n IH]; intros Hb Hf; cbv zeta.
  - simpl. split; [done|]. split; [intros; lia|done].
  - destruct IH as (IHlen & IHlo & IHhi); [lia..|].
    rewrite seq_S, foldl_app. simpl.
    set (r := foldl (embed_iteration payload_bits) flat (seq 0 n)) in *.
    destruct (lookup_lt_is_Some_2 payload_bits n) as [bit Hbit]; [lia|].
    destruct (lookup_lt_is_Some_2 flat n) as [c Hc]; [lia|].
    unfold embed_iteration. rewrite Hbit, (IHhi n), Hc by lia.
    split; [by rewrite length_insert|]. split.
    + intros i bit' c' Hi Hbit' Hc'.
      destruct (decide (i = n)) as [->|Hne].
      * rewrite list_lookup_insert_eq by lia. congruence.
      * rewrite list_lookup_insert_ne by done. apply IHlo; [lia|done..].
    + intros i Hi. rewrite list_lookup_insert_ne by lia. apply IHhi. lia.
Qed.

Lemma _embed_in_coeffs_spec (coeffs : wavedec) (payload_bits : list Z)
    (key : option bytes) :
  let flat := flatten (coeffs_1_1 coeffs) in
  (length flat < length payload_bits →
   _embed_in_coeffs coeffs payload_bits key
   = (Raise (ValueError ("Payload too large. Max capacity: "
                         +:+ pretty (length flat) +:+ " bits")), coeffs))
  ∧ (length payload_bits ≤ length flat →
     ∃ coeffs',
       _embed_in_coeffs coeffs payload_bits key = (Return coeffs', coeffs')
       ∧ let flat' := flatten (coeffs_1_1 coeffs') in
         length flat' = length flat
         ∧ (∀ i bit c, payload_bits !! i = Some bit → flat !! i = Some c →
              flat' !! i = Some (embed_coeff bit c))
         ∧ (∀ i, length payload_bits ≤ i → flat' !! i = flat !! i)).
Proof.
  cbv zeta. split; intros Hlen; unfold _embed_in_coeffs.
  - by rewrite decide_True.
  - rewrite decide_False by lia.
    set (flat := flatten (coeffs_1_1 coeffs)) in *.
    set (flat' := foldl (embed_iteration payload_bits) flat
                    (seq 0 (length payload_bits))).
    destruct (embed_loop_spec payload_bits flat (length payload_bits))
      as (Hl & Hlo & Hhi); [lia..|].
    fold flat' in Hl, Hlo, Hhi.
    eexists. split; [reflexivity|].
    match goal with
    | |- context [flatten (coeffs_1_1 ?c)] =>
        assert (Hfl : flatten (coeffs_1_1 c) = flat')
    end.
    { change (mjoin (reshape (length <$> coeffs_1_1 coeffs) flat') = flat').
      apply join_reshape. rewrite Hl. unfold flat, flatten.
      by rewrite length_join. }
    rewrite Hfl. split; [done|]. split; [|done].
    intros i bit c Hbit Hc. eapply Hlo; [|done..].
    by eapply lookup_lt_Some.
Qed.

End embedding.

(** ** [embed] and the capacity check *)

Section image_embed.
Import ImageSteganography.
Context {L : CryptoLib} {Laws : CryptoLaws L}.
Context {I : ImagingLib} {W : ImagingWriteLib I}.

(** C6, what the code does. [embed] hands [_embed_in_coeffs] the pair that
    [prepare_payload] returns, a sequence of length 2, so the capacity check
    compares 2 with the size of the band. For every payload, every 32-byte
    key and every image that decodes to a band of at least two coefficients,
    [embed] passes the check and ends in the PNG encoder: no
    payload-too-large error is raised, although the wire payload has at least
    16 bytes and no upper bound. The band that is encoded has the size of
    the image's band and differs from it in the first two coefficients at
    most: the payload is not written. *)
Theorem embed_ignores_payload_length (image_data payload key : bytes)
    (img : image) (e : entropy) :
  length key = 32 →
  Image_open image_data = Return img →
  let coeffs := _apply_dwt (luma img) in
  let band := flatten (coeffs_1_1 coeffs) in
  2 ≤ length band →
  ∃ wire metadata coeffs' e',
    PayloadProcessor.prepare_payload payload key None e
    = (Return (wire, metadata), e')
    ∧ 16 ≤ length wire
    ∧ embed image_data payload (Some key) e
      = (merge_save_png img (clip_uint8 (_inverse_dwt coeffs')), e')
    ∧ length (flatten (coeffs_1_1 coeffs')) = length band
    ∧ ∀ i, 2 ≤ i → flatten (coeffs_1_1 coeffs') !! i = band !! i.
Proof.
  intros Hk Hopen coeffs band Hband.
  destruct (prepare_payload_returns payload key None e Hk)
    as (enc & md & _ & Hprep & _); [done|].
  destruct (_embed_in_coeffs_spec coeffs [1; 1]%Z (Some key)) as [_ Hfit].
  destruct Hfit as (c' & Heq & Hl & _ & Hhi); [done|].
  eexists _, md, c', _. split; [exact Hprep|]. split; [|split; [|done]].
  - rewrite length_app, length_map, length_seq. lia.
  - unfold embed, st_bind. rewrite Hprep. unfold lift. rewrite Hopen.
    cbn [fst snd]. fold coeffs.
    change (as_bit <$> [ObjBytes _; ObjDict md]) with [1; 1]%Z.
    by rewrite Heq.
Qed.

End image_embed.

(** An 8 x 8 image has a band of 2 x 2 = 4 coefficients, fewer than the bits
    of any wire payload; [embed] returns a PNG for [b"HELLO"]. *)
Lemma embed_ignores_payload_length_witness :
  let coeffs :=
    ImageSteganography._apply_dwt
      (ImageSteganography.luma (8, 8, 128%Z)) in
  let band :=
    ImageSteganography.flatten (ImageSteganography.coeffs_1_1 coeffs) in
  length band = 4
  ∧ ∃ wire metadata png e',
      PayloadProcessor.prepare_payload (b "HELLO") Reference.zero_key None
        Reference.counting
      = (Return (wire, metadata), e')
      ∧ length band < 32 + 8 * length wire
      ∧ ImageSteganography.embed [x08; x08; x80] (b "HELLO")
          (Some Reference.zero_key) Reference.counting
        = (Return png, e').
Proof.
  intros coeffs band. split; [reflexivity|].
  destruct (@embed_ignores_payload_length Reference.lib reference_laws
              Reference.imaging Reference.imaging_write
              [x08; x08; x80] (b "HELLO") Reference.zero_key (8, 8, 128%Z)
              Reference.counting eq_refl eq_refl)
    as (wire & md & c' & e' & Hprep & Hlen & Hemb & _).
  { cbn. lia. }
  exists wire, md. eexists _, e'. split; [exact Hprep|]. split.
  - change (length band) with 4. lia.
  - exact Hemb.
Defined.

(** ** Reading the coefficients back *)

Section extraction.
Import ImageSteganography.

Lemma extract_loop_spec (flat : list Q) (n i : nat) (acc : list Z) :
  extract_loop flat i n acc = acc ++ (extract_bit <$> take n (drop i flat)).
Proof.
  revert i acc. induction n as [|n IH]; intros i acc; simpl.
  - by rewrite app_nil_r.
  - destruct (flat !! i) as [c|] eqn:Hc.
    + rewrite IH, <- app_assoc. f_equal.
      rewrite (drop_S _ _ _ Hc). simpl. done.
    + apply lookup_ge_None in Hc. rewrite drop_ge by done.
      by rewrite app_nil_r.
Qed.

Lemma _extract_from_coeffs_spec (coeffs : wavedec) (n : nat)
    (key : option bytes) :
  _extract_from_coeffs coeffs n key
  = extract_bit <$> take n (flatten (coeffs_1_1 coeffs)).
Proof. unfold _extract_from_coeffs. by rewrite extract_loop_spec, drop_0. Qed.

End extraction.

(** ** Capacity report of the image codec *)

Section capacity.
Import ImageSteganography.
Context {I : ImagingLib}.

(** C8, what the code does. For an image that decodes and has at least one
    pixel, [analyze_capacity] returns a dictionary whose ["total_coefficients"]
    is the size [n] of the selected level-2 detail subband, whose
    ["usable_bits"] is [n - 32] and whose ["usable_bytes"] is
    [(n - 32) // 8]; it has no ["capacity_bytes"] and no
    ["recommended_max_payload"] entry. *)
Theorem analyze_capacity_report (image_data : bytes) (img : image) :
  Image_open image_data = Return img →
  (0 < (image_size img).1 * (image_size img).2 * length (getbands img))%nat →
  let n := Z.of_nat (size (coeffs_1_1 (_apply_dwt (luma img)))) in
  ∃ report,
    analyze_capacity image_data = Return report
    ∧ report !! "total_coefficients" = Some (PInt n)
    ∧ report !! "usable_bits" = Some (PInt (n - 32))
    ∧ report !! "usable_bytes" = Some (PInt ((n - 32) `div` 8))
    ∧ report !! "capacity_bytes" = None
    ∧ report !! "recommended_max_payload" = None.
Proof.
  intros Hopen Hpix n. unfold analyze_capacity. rewrite Hopen.
  cbn [mbind outcome_bind]. fold n.
  unfold truediv. rewrite decide_False by lia.
  cbn [mbind outcome_bind].
  eexists. split; [reflexivity|].
  repeat split; by simplify_map_eq.
Qed.

End capacity.

(** A 64 x 64 solid gray image: the subband has 16 x 16 = 256 coefficients,
    the report says 28 usable bytes under ["usable_bytes"] and has neither of
    the two entries of the shared contract. *)
Lemma analyze_capacity_report_witness :
  ∃ report,
    ImageSteganography.analyze_capacity [x40; x40; x80] = Return report
    ∧ report !! "total_coefficients" = Some (PInt 256)
    ∧ report !! "usable_bits" = Some (PInt 224)
    ∧ report !! "usable_bytes" = Some (PInt 28)
    ∧ report !! "capacity_bytes" = None
    ∧ report !! "recommended_max_payload" = None.
Proof.
  apply (@analyze_capacity_report Reference.imaging [x40; x40; x80]
           (64, 64, 128%Z)).
  - reflexivity.
  - cbn. lia.
Defined.

(** ** The audio and video backends *)

Section stubs.
Context {A : AudioSteganography.AudioLib}.

(** C10. For every audio carrier (data that pydub decodes), seed and payload
    size, [AudioSteganography.extract] returns
    [b"Extracted payload from audio"]; for every video carrier, seed, payload
    size and state of the temporary directory, [VideoSteganography.extract]
    returns [b"Extracted payload from video"]. Neither result depends on the
    carrier, the seed or anything embedded before. *)
Theorem stub_extract_constant (audio_data video_data seed : bytes)
    (payload_size : nat) (audio : AudioSteganography.audio_segment)
    (fs : gmap string bytes) :
  AudioSteganography.AudioSegment_from_file audio_data = Return audio →
  AudioSteganography.extract audio_data seed payload_size
  = Return (b "Extracted payload from audio")
  ∧ VideoSteganography.extract video_data seed payload_size fs
    = (Return (b "Extracted payload from video"), fs).
Proof.
  intros Hload. split.
  - unfold AudioSteganography.extract. by rewrite Hload.
  - unfold VideoSteganography.extract, VideoSteganography.st_try_except,
      st_bind, VideoSteganography.NamedTemporaryFile,
      VideoSteganography.file_write, VideoSteganography.os_unlink, st_ret.
    set (name := fresh (dom fs)).
    assert (Hfresh : fs !! name = None).
    { apply not_elem_of_dom. apply is_fresh. }
    rewrite lookup_insert_eq, insert_insert_eq, lookup_insert_eq.
    by rewrite delete_insert_id.
Qed.

End stubs.

Lemma stub_extract_constant_witness :
  AudioSteganography.extract (b "RIFF....WAVEfmt ") (b "seed") 5
  = Return (b "Extracted payload from audio")
  ∧ VideoSteganography.extract (b "....ftypisom") (b "seed") 5
      {["clip.mp4" := b "frames"]}
    = (Return (b "Extracted payload from video"),
       {["clip.mp4" := b "frames"]}).
Proof.
  apply (@stub_extract_constant Reference.audio _ _ _ _ (b "RIFF....WAVEfmt ")).
  reflexivity.
Defined.

(** * Further properties of the code *)

(** ** QIM: stability *)

Section qim_margin.
Import ImageSteganography.
Local Open Scope Q_scope.


End qim_margin.

(** ** The coefficient routines as a pair *)

Section coefficient_routines.
Import ImageSteganography.

Lemma reshape_lengths {A} (szs : list nat) (l : list A) :
  sum_list szs ≤ length l → length <$> reshape szs l = szs.
Proof.
  revert l. induction szs as [|sz szs IH]; intros l Hl; simpl in *; [done|].
  rewrite length_take, IH by (rewrite length_drop; lia).
  f_equal. lia.
Qed.

(** X4. What [_embed_in_coeffs] does not touch: the approximation band, the
    level-1 details and the two other level-2 detail bands are returned as
    they were, and the marked band keeps its shape. *)
Theorem embed_in_coeffs_frame (coeffs coeffs' : wavedec)
    (payload_bits : list Z) (key : option bytes) :
  (_embed_in_coeffs coeffs payload_bits key).1 = Return coeffs' →
  cA2 coeffs' = cA2 coeffs
  ∧ level1 coeffs' = level1 coeffs
  ∧ (level2 coeffs').1.1 = (level2 coeffs).1.1
  ∧ (level2 coeffs').2 = (level2 coeffs).2
  ∧ shape (coeffs_1_1 coeffs') = shape (coeffs_1_1 coeffs).
Proof.
  unfold _embed_in_coeffs.
  destruct (decide _) as [|Hfit]; [done|]. cbn [fst]. intros [= <-].
  cbn [cA2 level1 level2 fst snd]. repeat split.
  unfold coeffs_1_1 at 1. cbn [level2 fst snd].
  unfold shape at 1, reshape_to. apply reshape_lengths.
  destruct (embed_loop_spec payload_bits (flatten (coeffs_1_1 coeffs))
              (length payload_bits)) as (Hl & _); [lia..|].
  rewrite Hl. unfold shape, flatten. by rewrite length_join.
Qed.

(** X6. [_extract_from_coeffs] stops at the end of the band: it returns
    [min(payload_length, size)] values, each 0 or 1, and the bits read for a
    shorter length are a prefix of those read for a longer one. *)
Theorem extract_from_coeffs_bounds (coeffs : wavedec) (n k : nat)
    (key : option bytes) :
  length (_extract_from_coeffs coeffs n key) = n `min` size (coeffs_1_1 coeffs)
  ∧ Forall (λ bit, bit = 0%Z ∨ bit = 1%Z) (_extract_from_coeffs coeffs n key)
  ∧ take n (_extract_from_coeffs coeffs (n + k) key)
    = _extract_from_coeffs coeffs n key.
Proof.
  rewrite !_extract_from_coeffs_spec. split; [|split].
  - rewrite length_fmap, length_take. unfold size, shape, flatten.
    by rewrite length_join.
  - apply Forall_fmap, Forall_true. intros c. unfold extract_bit. simpl.
    destruct (Qlt_le_dec _ _); auto.
  - rewrite <- fmap_take, take_take. f_equal. f_equal. lia.
Qed.

End coefficient_routines.

Lemma embed_in_coeffs_frame_witness :
  let coeffs :=
    ImageSteganography.Wavedec [[7%Q]]
      ([[1%Q]], [[3%Q; (27 # 2)%Q]; [(- (5))%Q; 46%Q]], [[2%Q]])
      ([[4%Q]], [[5%Q]], [[6%Q]]) in
  ∃ coeffs',
    (ImageSteganography._embed_in_coeffs coeffs [1; 0; 1]%Z None).1
    = Return coeffs'
    ∧ ImageSteganography.cA2 coeffs' = [[7%Q]]
    ∧ ImageSteganography.level1 coeffs' = ([[4%Q]], [[5%Q]], [[6%Q]])
    ∧ (ImageSteganography.level2 coeffs').1.1 = [[1%Q]]
    ∧ (ImageSteganography.level2 coeffs').2 = [[2%Q]]
    ∧ ImageSteganography.shape (ImageSteganography.coeffs_1_1 coeffs')
      = [2; 2].
Proof.
  intros coeffs. eexists. split; [reflexivity|].
  eapply (embed_in_coeffs_frame coeffs _ [1; 0; 1]%Z None). reflexivity.
Defined.

(** ** The capacity report against the capacity check *)

Section capacity_bound.
Import ImageSteganography.
Context {I : ImagingLib}.

Lemma analyze_capacity_returns (image_data : bytes) (img : image)
    (report : gmap string pyval) :
  Image_open image_data = Return img →
  analyze_capacity image_data = Return report →
  report !! "usable_bytes"
  = Some (PInt ((Z.of_nat (size (coeffs_1_1 (_apply_dwt (luma img)))) - 32)
                `div` 8)).
Proof.
  intros Hopen. unfold analyze_capacity. rewrite Hopen.
  cbn [mbind outcome_bind].
  destruct (truediv _ _) as [ratio|x]; cbn [mbind outcome_bind]; [|done].
  intros [= <-]. by simplify_map_eq.
Qed.

(** X7. The capacity reported for an image is exact for that image's
    coefficients: a bitstream of at most 32 bits plus [usable_bytes] bytes is
    accepted by [_embed_in_coeffs], and one of 32 bits plus
    [usable_bytes + 1] bytes or more is refused. *)
Theorem usable_bytes_fit (image_data : bytes) (img : image)
    (report : gmap string pyval) (usable_bytes : Z) (payload_bits : list Z)
    (key : option bytes) :
  Image_open image_data = Return img →
  analyze_capacity image_data = Return report →
  report !! "usable_bytes" = Some (PInt usable_bytes) →
  let coeffs := _apply_dwt (luma img) in
  ((Z.of_nat (length payload_bits) ≤ 32 + 8 * usable_bytes)%Z →
   ∃ coeffs', (_embed_in_coeffs coeffs payload_bits key).1 = Return coeffs')
  ∧ ((32 + 8 * (usable_bytes + 1) ≤ Z.of_nat (length payload_bits))%Z →
     ∃ msg, _embed_in_coeffs coeffs payload_bits key
            = (Raise (ValueError msg), coeffs)).
Proof.
  intros Hopen Hrep Hu coeffs.
  rewrite (analyze_capacity_returns _ _ _ Hopen Hrep) in Hu.
  injection Hu as <-. fold coeffs.
  assert (Hsize : size (coeffs_1_1 coeffs) = length (flatten (coeffs_1_1 coeffs))).
  { unfold size, shape, flatten. by rewrite length_join. }
  rewrite Hsize.
  destruct (_embed_in_coeffs_spec coeffs payload_bits key) as [Hbig Hfit].
  split; intros Hlen.
  - destruct Hfit as (c' & Heq & _); [Z.div_mod_to_equations; lia|].
    exists c'. by rewrite Heq.
  - eexists. apply Hbig. Z.div_mod_to_equations. lia.
Qed.

(** X8. For an image whose marked band has fewer than 32 coefficients the
    reported [usable_bits] and [usable_bytes] are negative. *)
Theorem analyze_capacity_small_image (image_data : bytes) (img : image) :
  Image_open image_data = Return img →
  (0 < (image_size img).1 * (image_size img).2 * length (getbands img))%nat →
  size (coeffs_1_1 (_apply_dwt (luma img))) < 32 →
  ∃ report usable_bits usable_bytes,
    analyze_capacity image_data = Return report
    ∧ report !! "usable_bits" = Some (PInt usable_bits)
    ∧ report !! "usable_bytes" = Some (PInt usable_bytes)
    ∧ (usable_bits < 0)%Z ∧ (usable_bytes < 0)%Z.
Proof.
  intros Hopen Hpix Hsmall. unfold analyze_capacity. rewrite Hopen.
  cbn [mbind outcome_bind].
  unfold truediv. rewrite decide_False by lia.
  cbn [mbind outcome_bind].
  eexists _, _, _. split; [reflexivity|].
  split; [by simplify_map_eq|]. split; [by simplify_map_eq|].
  Z.div_mod_to_equations. lia.
Qed.

End capacity_bound.

Lemma usable_bytes_fit_witness :
  let coeffs := Reference.solid_wavedec (replicate 64 (replicate 64 128%Z)) in
  (∃ coeffs',
     (ImageSteganography._embed_in_coeffs coeffs (replicate 256 1%Z) None).1
     = Return coeffs')
  ∧ ∃ msg,
      ImageSteganography._embed_in_coeffs coeffs (replicate 264 1%Z) None
      = (Raise (ValueError msg), coeffs).
Proof.
  intros coeffs.
  assert (∃ report, ImageSteganography.analyze_capacity [x40; x40; x80]
                    = Return report) as [report Hrep]
    by (eexists; reflexivity).
  pose proof (@analyze_capacity_returns Reference.imaging [x40; x40; x80]
                (64, 64, 128%Z) report eq_refl Hrep) as Hu.
  split.
  - apply (proj1 (@usable_bytes_fit Reference.imaging [x40; x40; x80]
                    (64, 64, 128%Z) report 28 (replicate 256 1%Z) None
                    eq_refl Hrep Hu)).
    rewrite length_replicate. lia.
  - apply (proj2 (@usable_bytes_fit Reference.imaging [x40; x40; x80]
                    (64, 64, 128%Z) report 28 (replicate 264 1%Z) None
                    eq_refl Hrep Hu)).
    rewrite length_replicate. lia.
Defined.

(** An 8 x 8 image: a 2 x 2 band, so [-28] usable bits and [-4] bytes. *)
Lemma analyze_capacity_small_image_witness :
  ∃ report usable_bits usable_bytes,
    ImageSteganography.analyze_capacity [x08; x08; x80] = Return report
    ∧ report !! "usable_bits" = Some (PInt usable_bits)
    ∧ report !! "usable_bytes" = Some (PInt usable_bytes)
    ∧ (usable_bits < 0)%Z ∧ (usable_bytes < 0)%Z.
Proof.
  apply (@analyze_capacity_small_image Reference.imaging [x08; x08; x80]
           (8, 8, 128%Z)).
  - reflexivity.
  - cbn. lia.
  - cbn. lia.
Defined.

(** ** Generated keys *)

Section generated_keys.
Context {L : CryptoLib} {Laws : CryptoLaws L}.

(** X10. A signing key pair from [generate_signing_keypair] works with
    [sign_data] and [verify_signature], whatever the generator draws: both
    keys have 32 bytes, signing any data returns a 64-byte signature, and
    that signature verifies under the public key. *)
Theorem generated_signing_keypair_signs (data : bytes) (e : entropy) :
  ∃ private_key public_key signature,
    (KeyManager.generate_signing_keypair e).1
    = Return (private_key, public_key)
    ∧ length private_key = 32 ∧ length public_key = 32
    ∧ KeyManager.sign_data data private_key = Return signature
    ∧ length signature = 64
    ∧ KeyManager.verify_signature data signature public_key = Return true.
Proof.
  set (priv := map (tape e) (seq (cursor e) 32)).
  assert (Hpriv : length priv = 32)
    by (unfold priv; by rewrite length_map, length_seq).
  destruct (verify_sign_data data priv Hpriv) as (sig & Hsign & Hver).
  exists priv, (Ed25519_public_key priv), sig.
  split; [done|]. split; [done|].
  split; [by apply ed25519_public_length|]. split; [done|]. split; [|done].
  unfold KeyManager.sign_data in Hsign.
  rewrite (ed25519_from_private_ok _ Hpriv) in Hsign.
  injection Hsign as <-. by apply ed25519_sign_length.
Qed.

Lemma wrap_then_unwrap (priv session_key : bytes) (e : entropy) :
  length priv = 32 →
  ∃ wrapped,
    (KeyManager.wrap_session_key session_key (X25519_public_key priv) e).1
    = Return wrapped
    ∧ 44 ≤ length wrapped
    ∧ KeyManager.unwrap_session_key wrapped priv = Return session_key.
Proof.
  intros Hpriv.
  pose proof (x25519_public_length priv Hpriv) as Hpub.
  set (eph := map (tape e) (seq (cursor e) 32)).
  assert (Heph : length eph = 32)
    by (unfold eph; by rewrite length_map, length_seq).
  set (nonce := map (tape e) (seq (cursor e + 32) 12)).
  assert (Hnonce : length nonce = 12)
    by (unfold nonce; by rewrite length_map, length_seq).
  pose proof (x25519_public_length eph Heph) as Hephpub.
  destruct (x25519_agreement eph priv Heph Hpriv) as (s & Hs1 & Hs2).
  set (derived := HKDF_SHA256_derive 32 None (b "session_key_wrap") s).
  assert (Hderived : length derived = 32) by apply hkdf_length.
  destruct (aesgcm_encrypt_ok derived nonce session_key Hderived Hnonce)
    as [ct Hct].
  exists (X25519_public_key eph ++ nonce ++ ct). split; [|split].
  - unfold KeyManager.wrap_session_key, st_bind, lift,
      KeyManager.X25519PrivateKey_generate, urandom, py_ret, st_ret.
    rewrite (x25519_from_public_ok _ Hpub). fold eph. rewrite Hs1.
    fold derived. rewrite (aesgcm_key_ok _ Hderived).
    cbn [tape cursor fst snd]. fold nonce. by rewrite Hct.
  - rewrite !length_app. lia.
  - unfold KeyManager.unwrap_session_key.
    rewrite (take_app_length' _ _ 32), (drop_app_length' _ _ 32) by done.
    rewrite (take_app_length' _ _ 12) by done.
    replace 44 with (32 + 12) by done.
    rewrite <- drop_drop, (drop_app_length' _ _ 32) by done.
    rewrite (drop_app_length' _ _ 12) by done.
    rewrite (x25519_from_public_ok _ Hephpub),
      (x25519_from_private_ok _ Hpriv).
    cbn [mbind outcome_bind]. rewrite Hs2. cbn [mbind outcome_bind].
    fold derived. rewrite (aesgcm_key_ok _ Hderived).
    cbn [mbind outcome_bind].
    by rewrite (aesgcm_roundtrip _ _ _ _ Hct).
Qed.

(** X11. An exchange key pair from [generate_keypair] works with the wrapping
    functions, whatever the generator and [os.urandom] deliver: both keys
    have 32 bytes, and a session key wrapped for the generated public key
    comes as a blob of at least 44 bytes that [unwrap_session_key] opens with
    the generated private key. *)
Theorem generated_keypair_unwraps (session_key : bytes) (e e1 : entropy) :
  ∃ private_key public_key wrapped,
    (KeyManager.generate_keypair e).1 = Return (private_key, public_key)
    ∧ length private_key = 32 ∧ length public_key = 32
    ∧ (KeyManager.wrap_session_key session_key public_key e1).1
      = Return wrapped
    ∧ 44 ≤ length wrapped
    ∧ KeyManager.unwrap_session_key wrapped private_key = Return session_key.
Proof.
  set (priv := map (tape e) (seq (cursor e) 32)).
  assert (Hpriv : length priv = 32)
    by (unfold priv; by rewrite length_map, length_seq).
  destruct (wrap_then_unwrap priv session_key e1 Hpriv)
    as (wrapped & Hwrap & Hlen & Hun).
  exists priv, (X25519_public_key priv), wrapped.
  split; [done|]. split; [done|].
  split; [by apply x25519_public_length|]. done.
Qed.

End generated_keys.

Lemma generated_signing_keypair_signs_witness :
  ∃ private_key public_key signature,
    (KeyManager.generate_signing_keypair Reference.counting).1
    = Return (private_key, public_key)
    ∧ length private_key = 32 ∧ length public_key = 32
    ∧ KeyManager.sign_data (b "HELLO") private_key = Return signature
    ∧ length signature = 64
    ∧ KeyManager.verify_signature (b "HELLO") signature public_key
      = Return true.
Proof.
  exact (@generated_signing_keypair_signs Reference.lib reference_laws
           (b "HELLO") Reference.counting).
Defined.

Lemma generated_keypair_unwraps_witness :
  ∃ private_key public_key wrapped,
    (KeyManager.generate_keypair Reference.counting).1
    = Return (private_key, public_key)
    ∧ length private_key = 32 ∧ length public_key = 32
    ∧ (KeyManager.wrap_session_key Reference.zero_key public_key
         Reference.zeros).1
      = Return wrapped
    ∧ 44 ≤ length wrapped
    ∧ KeyManager.unwrap_session_key wrapped private_key
      = Return Reference.zero_key.
Proof.
  exact (@generated_keypair_unwraps Reference.lib reference_laws
           Reference.zero_key Reference.counting Reference.zeros).
Defined.

(** ** When extraction succeeds *)

Section extraction_succeeds.
Context {L : CryptoLib} {Laws : CryptoLaws L}.

Lemma extract_payload_inverts (message session_key header ct : bytes)
    (signing_key : option bytes) :
  length session_key = 32 →
  (∀ sk, signing_key = Some sk → length sk = 32) →
  length header = 16 →
  AESGCM_encrypt session_key (take 12 header) (gzip_compress message)
    = Return ct →
  PayloadProcessor.extract_payload
    (header ++ RSCodec_encode RS_REDUNDANCY
                 (match signing_key with
                  | Some sk => Ed25519_sign sk ct ++ ct
                  | None => ct
                  end))
    session_key (Ed25519_public_key <$> signing_key)
  = Return message.
Proof.
  intros Hk Hsk Hh Hct. unfold PayloadProcessor.extract_payload, HEADER_SIZE.
  rewrite (take_app_length' _ _ 16), (drop_app_length' _ _ 16) by done.
  rewrite rs_roundtrip. cbn [try_except mbind outcome_bind].
  assert (Hdec :
    (aesgcm ← AESGCM session_key;
     compressed ← try_except (AESGCM_decrypt aesgcm (take 12 header) ct)
       any_Exception
       (λ _, Raise (ValueError
          "Decryption failed - incorrect key or corrupted data"));
     msg ← try_except (gzip_decompress compressed) any_Exception
       (λ _, Raise (ValueError
          "Decompression failed - data may be corrupted"));
     Return msg) = Return message).
  { rewrite (aesgcm_key_ok _ Hk). cbn [mbind outcome_bind].
    rewrite (aesgcm_roundtrip _ _ _ _ Hct). cbn [try_except mbind outcome_bind].
    by rewrite gzip_roundtrip. }
  destruct signing_key as [sk|]; cbn [fmap option_fmap option_map].
  - pose proof (Hsk sk eq_refl) as Hlen.
    pose proof (ed25519_sign_length sk ct Hlen) as Hsig.
    rewrite (take_app_length' _ _ 64), (drop_app_length' _ _ 64) by done.
    unfold KeyManager.verify_signature.
    rewrite (ed25519_from_public_ok _ (ed25519_public_length _ Hlen)).
    cbn [mbind outcome_bind].
    rewrite (ed25519_sign_verify _ _ Hlen).
    cbn [try_except mbind outcome_bind negb]. exact Hdec.
  - exact Hdec.
Qed.

(** X12. [extract_payload] inverts the encoding steps once the header begins
    with the encryption nonce: for a 16-byte header, a ciphertext of the
    compressed message under the first 12 header bytes, optionally preceded
    by its signature, and the matching verify key (none for an unsigned
    body), the message comes back. Header bytes 12 to 15 play no part. *)
Theorem extract_payload_header_nonce (message session_key header ct : bytes)
    (signing_key : option bytes) :
  length session_key = 32 →
  (∀ sk, signing_key = Some sk → length sk = 32) →
  length header = 16 →
  AESGCM_encrypt session_key (take 12 header) (gzip_compress message)
    = Return ct →
  PayloadProcessor.extract_payload
    (header ++ RSCodec_encode RS_REDUNDANCY
                 (match signing_key with
                  | Some sk => Ed25519_sign sk ct ++ ct
                  | None => ct
                  end))
    session_key (Ed25519_public_key <$> signing_key)
  = Return message.
Proof. apply extract_payload_inverts. Qed.

(** X13. [prepare_payload] followed by [extract_payload] returns the message
    when the entropy source happens to repeat itself, the 12 bytes read for
    the header start being those read for the nonce. *)
Theorem prepare_extract_repeating_entropy (message session_key : bytes)
    (signing_key : option bytes) (e : entropy) :
  length session_key = 32 →
  (∀ sk, signing_key = Some sk → length sk = 32) →
  (∀ i, i < 12 → tape e (cursor e + 12 + i) = tape e (cursor e + i)) →
  ∃ payload metadata e',
    PayloadProcessor.prepare_payload message session_key signing_key e
    = (Return (payload, metadata), e')
    ∧ PayloadProcessor.extract_payload payload session_key
        (Ed25519_public_key <$> signing_key)
      = Return message.
Proof.
  intros Hk Hsk Hrep.
  destruct (prepare_payload_returns message session_key signing_key e Hk Hsk)
    as (ct & md & Hct & Hprep & _).
  set (nonce := map (tape e) (seq (cursor e) 12)) in *.
  set (header := map (tape e) (seq (cursor e + 12) 16)) in *.
  eexists _, md, _. split; [exact Hprep|].
  assert (Hh : length header = 16)
    by (unfold header; by rewrite length_map, length_seq).
  assert (Hn : take 12 header = nonce); [|by apply extract_payload_inverts;
                                            [..|rewrite Hn]].
  { unfold header, nonce. apply list_eq. intros i.
    rewrite lookup_take.
    destruct (decide (i < 12)) as [Hi|Hi].
    + rewrite !list_lookup_fmap, !lookup_seq_lt by lia. simpl.
      f_equal. apply Hrep. done.
    + rewrite (lookup_ge_None_2 (map _ _))
        by (rewrite length_map, length_seq; lia).
      done. }
Qed.

(** X14. For a 32-byte session key (and a 32-byte signing key, if any)
    [prepare_payload] always returns. It reads 12 + 16 bytes of entropy, the
    payload is the second read followed by the Reed-Solomon encoding of the
    ciphertext (with the signature in front when signing), and the metadata
    dictionary holds the nonce used to encrypt, version 1 and whether a
    signature is present. *)
Theorem prepare_payload_layout (message session_key : bytes)
    (signing_key : option bytes) (e : entropy) :
  length session_key = 32 →
  (∀ sk, signing_key = Some sk → length sk = 32) →
  let nonce := map (tape e) (seq (cursor e) 12) in
  let header := map (tape e) (seq (cursor e + 12) 16) in
  ∃ encrypted metadata,
    AESGCM_encrypt session_key nonce (gzip_compress message) = Return encrypted
    ∧ PayloadProcessor.prepare_payload message session_key signing_key e
      = (Return (header ++ RSCodec_encode RS_REDUNDANCY
                   (match signing_key with
                    | Some sk => Ed25519_sign sk encrypted ++ encrypted
                    | None => encrypted
                    end), metadata),
         Entropy (tape e) (cursor e + 12 + 16))
    ∧ metadata !! "nonce" = Some (PBytes nonce)
    ∧ metadata !! "version" = Some (PInt 1)
    ∧ metadata !! "has_signature"
      = Some (PBool (bool_decide (is_Some signing_key))).
Proof. apply prepare_payload_returns. Qed.

End extraction_succeeds.

Lemma extract_payload_header_nonce_witness :
  let header := replicate 12 x07 ++ [xde; xad; xbe; xef] in
  let ct := Reference.magic ++ b "HELLO"
            ++ Reference.tag Reference.zero_key (replicate 12 x07) in
  PayloadProcessor.extract_payload
    (header ++ RSCodec_encode RS_REDUNDANCY
                 (Ed25519_sign Reference.zero_key ct ++ ct))
    Reference.zero_key (Some (Ed25519_public_key Reference.zero_key))
  = Return (b "HELLO").
Proof.
  intros header ct.
  apply (@extract_payload_header_nonce Reference.lib reference_laws
           (b "HELLO") Reference.zero_key header ct
           (Some Reference.zero_key)).
  - reflexivity.
  - by intros sk [= <-].
  - reflexivity.
  - reflexivity.
Defined.

Lemma prepare_extract_repeating_entropy_witness :
  ∃ payload metadata e',
    PayloadProcessor.prepare_payload (b "HELLO") Reference.zero_key
      (Some Reference.zero_key) Reference.zeros
    = (Return (payload, metadata), e')
    ∧ PayloadProcessor.extract_payload payload Reference.zero_key
        (Some (Ed25519_public_key Reference.zero_key))
      = Return (b "HELLO").
Proof.
  apply (@prepare_extract_repeating_entropy Reference.lib reference_laws
           (b "HELLO") Reference.zero_key (Some Reference.zero_key)
           Reference.zeros).
  - reflexivity.
  - by intros sk [= <-].
  - reflexivity.
Defined.

Lemma prepare_payload_layout_witness :
  ∃ encrypted metadata,
    AESGCM_encrypt Reference.zero_key (map byte_of_nat (seq 0 12))
      (gzip_compress (b "HELLO")) = Return encrypted
    ∧ PayloadProcessor.prepare_payload (b "HELLO") Reference.zero_key None
        Reference.counting
      = (Return (map byte_of_nat (seq 12 16)
                 ++ RSCodec_encode RS_REDUNDANCY encrypted, metadata),
         Entropy byte_of_nat 28)
    ∧ metadata !! "nonce" = Some (PBytes (map byte_of_nat (seq 0 12)))
    ∧ metadata !! "version" = Some (PInt 1)
    ∧ metadata !! "has_signature" = Some (PBool false).
Proof.
  apply (@prepare_payload_layout Reference.lib reference_laws (b "HELLO")
           Reference.zero_key None Reference.counting); [reflexivity|done].
Defined.

(** ** Documents *)

Section hex.
Import DocumentSteganography.

Lemma bytes_fromhex_pair (x : byte) (rest : string) :
  bytes_fromhex (String (hex_digit (Byte.to_N x / 16))
                   (String (hex_digit (Byte.to_N x mod 16)) rest))
  = (tl ← bytes_fromhex rest; Return (x :: tl)).
Proof. destruct x; reflexivity. Qed.

Lemma bytes_fromhex_hex (s : bytes) : bytes_fromhex (bytes_hex s) = Return s.
Proof.
  induction s as [|x s IH]; [done|].
  cbn [bytes_hex]. by rewrite bytes_fromhex_pair, IH.
Qed.

Lemma bytes_hex_nonempty (s : bytes) : s ≠ [] → bytes_hex s ≠ "".
Proof. by destruct s. Qed.

End hex.

Section pdf_documents.
Import DocumentSteganography.
Context {P : PdfLib} {PL : PdfLaws P}.

(** X15. PDF round trip: for every PDF pikepdf opens and every payload (the empty
    one included), [extract_pdf] of the result of [embed_pdf] returns the
    payload; the seeds play no part. *)
Theorem extract_embed_pdf (pdf_data payload seed seed' : bytes) (d : pdf) :
  Pdf_open pdf_data = Return d →
  ∃ stego,
    embed_pdf pdf_data payload seed = Return stego
    ∧ extract_pdf stego seed' = Return payload.
Proof.
  intros Hopen. exists (Pdf_save (set_Root_Stego d payload)).
  unfold embed_pdf, extract_pdf. rewrite Hopen. split; [done|].
  rewrite pdf_save_open. cbn [mbind outcome_bind].
  by rewrite pdf_has_stego, pdf_read_stego.
Qed.

End pdf_documents.

Section docx_documents.
Import DocumentSteganography.
Context {D : DocxLib} {DL : DocxLaws D}.

Lemma fresh_twice (fs : gmap string bytes) (data : bytes) :
  fresh (dom (<[fresh (dom fs) := data]> fs)) ≠ fresh (dom fs).
Proof.
  intros Heq.
  pose proof (is_fresh (dom (<[fresh (dom fs) := data]> fs))) as Hf.
  rewrite Heq in Hf. apply Hf. rewrite dom_insert. set_solver.
Qed.

Lemma fresh_lookup (fs : gmap string bytes) : fs !! fresh (dom fs) = None.
Proof. apply not_elem_of_dom, is_fresh. Qed.

Lemma embed_docx_returns (docx_data payload seed : bytes) (doc doc' : document)
    (fs : gmap string bytes) :
  Document_load docx_data = Return doc →
  set_comments doc (bytes_hex payload) = Return doc' →
  embed_docx docx_data payload seed fs = (Return (Document_save doc'), fs).
Proof.
  intros Hload Hset.
  unfold embed_docx, VideoSteganography.st_try_except, st_bind, lift, st_ret,
    VideoSteganography.NamedTemporaryFile, VideoSteganography.file_write,
    VideoSteganography.os_unlink, read_file, write_file.
  set (n1 := fresh (dom fs)).
  set (n2 := fresh (dom (<[n1 := []]> fs))).
  assert (Hne : n2 ≠ n1) by apply fresh_twice.
  assert (H1 : fs !! n1 = None) by apply fresh_lookup.
  assert (H2 : fs !! n2 = None).
  { pose proof (fresh_lookup (<[n1 := []]> fs)) as Hf. fold n2 in Hf.
    by rewrite lookup_insert_ne in Hf. }
  repeat (rewrite ?lookup_insert_eq, ?lookup_insert_ne by done; cbn [app]).
  rewrite Hload, Hset.
  repeat (rewrite ?lookup_insert_eq, ?lookup_insert_ne, ?lookup_delete_ne
            by done; cbn [app]).
  f_equal. apply map_eq. intros k.
  destruct (decide (k = n2)) as [->|]; [by rewrite lookup_delete_eq|].
  rewrite lookup_delete_ne by done.
  destruct (decide (k = n1)) as [->|]; [by rewrite lookup_delete_eq|].
  rewrite lookup_delete_ne by done.
  by rewrite !lookup_insert_ne by done.
Qed.

(** X16. DOCX round trip: for a document python-docx loads, a non-empty payload
    whose hexadecimal text the comments property accepts, [embed_docx]
    returns a document from which [extract_docx] returns the payload, and
    both leave the temporary directory as they found it. *)
Theorem extract_embed_docx (docx_data payload seed seed' : bytes)
    (doc doc' : document) (fs fs' : gmap string bytes) :
  Document_load docx_data = Return doc →
  set_comments doc (bytes_hex payload) = Return doc' →
  payload ≠ [] →
  ∃ stego,
    embed_docx docx_data payload seed fs = (Return stego, fs)
    ∧ extract_docx stego seed' fs' = (Return payload, fs').
Proof.
  intros Hload Hset Hne. exists (Document_save doc').
  split; [by apply (embed_docx_returns _ _ _ doc)|].
  unfold extract_docx, VideoSteganography.st_try_except, st_bind, lift, st_ret,
    VideoSteganography.NamedTemporaryFile, VideoSteganography.file_write,
    VideoSteganography.os_unlink, read_file.
  repeat (rewrite ?lookup_insert_eq, ?insert_insert_eq; cbn [app]).
  rewrite docx_save_load, (docx_comments_set _ _ _ Hset).
  rewrite decide_False by by apply bytes_hex_nonempty.
  rewrite bytes_fromhex_hex.
  by rewrite delete_insert_id by apply fresh_lookup.
Qed.

(** X17. The empty payload does not survive DOCX: [embed_docx] returns a
    document, but its comments are the empty text, so [extract_docx] raises
    "No steganographic payload found in DOCX"; it raises before unlinking,
    and the temporary copy of the document stays in the directory. *)
Theorem extract_embed_docx_empty (docx_data seed seed' : bytes)
    (doc doc' : document) (fs fs' : gmap string bytes) :
  Document_load docx_data = Return doc →
  set_comments doc (bytes_hex []) = Return doc' →
  ∃ stego,
    embed_docx docx_data [] seed fs = (Return stego, fs)
    ∧ extract_docx stego seed' fs'
      = (Raise (ValueError "No steganographic payload found in DOCX"),
         <[fresh (dom fs') := stego]> fs').
Proof.
  intros Hload Hset. exists (Document_save doc').
  split; [by apply (embed_docx_returns _ _ _ doc)|].
  unfold extract_docx, VideoSteganography.st_try_except, st_bind, lift, st_ret,
    VideoSteganography.NamedTemporaryFile, VideoSteganography.file_write,
    read_file.
  repeat (rewrite ?lookup_insert_eq, ?insert_insert_eq; cbn [app]).
  rewrite docx_save_load, (docx_comments_set _ _ _ Hset). cbn [bytes_hex].
  by rewrite decide_True.
Qed.

End docx_documents.

Section document_dispatch.
Import DocumentSteganography.
Context {P : PdfLib} {D : DocxLib}.

(** X18. A [document_type] that is neither [None] nor ['pdf'] nor ['docx'] is
    refused by [embed] and by [extract] whatever the data begins with; an
    explicit ['pdf'] or ['docx'] selects that format whatever the data begins
    with, and only for [None] the first bytes decide ([%PDF] before [PK]). *)
Theorem document_type_dispatch (document_data payload seed : bytes)
    (document_type : pyarg) (fs : gmap string bytes) :
  (document_type ≠ ArgNone → document_type ≠ ArgStr "pdf" →
   document_type ≠ ArgStr "docx" →
   embed document_data payload seed document_type fs
   = (Raise (ValueError "Unsupported document type"), fs)
   ∧ extract document_data seed document_type fs
     = (Raise (ValueError "Unsupported document type"), fs))
  ∧ embed document_data payload seed (ArgStr "pdf") fs
    = (embed_pdf document_data payload seed, fs)
  ∧ extract document_data seed (ArgStr "pdf") fs
    = (extract_pdf document_data seed, fs)
  ∧ embed document_data payload seed (ArgStr "docx") fs
    = embed_docx document_data payload seed fs
  ∧ extract document_data seed (ArgStr "docx") fs
    = extract_docx document_data seed fs
  ∧ (take 4 document_data = b "%PDF" →
     embed document_data payload seed ArgNone fs
     = (embed_pdf document_data payload seed, fs)
     ∧ extract document_data seed ArgNone fs
       = (extract_pdf document_data seed, fs))
  ∧ (take 2 document_data = b "PK" →
     embed document_data payload seed ArgNone fs
     = embed_docx document_data payload seed fs
     ∧ extract document_data seed ArgNone fs
       = extract_docx document_data seed fs).
Proof.
  split; [|split; [|split; [|split; [|split; [|split]]]]].
  - intros H1 H2 H3. unfold embed, extract, is_pdf, is_docx.
    rewrite (bool_decide_eq_false_2 _ H1), (bool_decide_eq_false_2 _ H2),
      (bool_decide_eq_false_2 _ H3). done.
  - done.
  - done.
  - done.
  - done.
  - intros Hm. unfold embed, extract, is_pdf.
    rewrite (bool_decide_eq_true_2 _ Hm). done.
  - intros Hm. unfold embed, extract, is_pdf, is_docx.
    rewrite (bool_decide_eq_true_2 _ Hm).
    rewrite (bool_decide_eq_false_2 (take 4 document_data = b "%PDF")); [done|].
    intros Hp. destruct document_data as [|x [|y l]]; try done.
    injection Hm as -> ->. done.
Qed.

End document_dispatch.

(** X19. [analyze_capacity] of the document codec never raises. The report always
    has a non-negative [capacity_bytes] and [recommended_max_payload] equal to
    its half (floor); for a PDF or DOCX the capacity is a hundredth, or a
    two-hundredth, of the size, and for anything else the fixed 1000, even
    when the data is shorter than that. *)
Theorem document_analyze_capacity_total (document_data : bytes)
    (document_type : DocumentSteganography.pyarg) :
  ∃ report capacity_bytes,
    DocumentSteganography.analyze_capacity document_data document_type
    = Return report
    ∧ report !! "capacity_bytes"
      = Some (DocumentSteganography.DInt capacity_bytes)
    ∧ report !! "recommended_max_payload"
      = Some (DocumentSteganography.DInt (capacity_bytes `div` 2)%Z)
    ∧ (0 ≤ capacity_bytes)%Z
    ∧ capacity_bytes
      = (if DocumentSteganography.is_pdf document_data document_type
         then Z.of_nat (length document_data) `div` 100
         else if DocumentSteganography.is_docx document_data document_type
         then Z.of_nat (length document_data) `div` 200
         else 1000)%Z.
Proof.
  unfold DocumentSteganography.analyze_capacity.
  destruct (DocumentSteganography.is_pdf _ _);
    [|destruct (DocumentSteganography.is_docx _ _)];
    cbn [try_except any_Exception]; eexists _, _;
    (split; [reflexivity|]);
    (split; [by simplify_map_eq|]); (split; [by simplify_map_eq|]);
    split; try done; Z.div_mod_to_equations; lia.
Qed.

Lemma reference_pdf_laws : DocumentSteganography.PdfLaws ReferenceDocs.pdflib.
Proof.
  split; simpl.
  - by intros [s|].
  - done.
  - done.
Qed.

Lemma reference_docx_laws :
  DocumentSteganography.DocxLaws ReferenceDocs.docxlib.
Proof.
  split; simpl.
  - intros d. by rewrite drop_0, string_of_list_byte_of_string.
  - intros d d' text. destruct (decide _); [|done]. by intros [= <-].
Qed.

Lemma extract_embed_pdf_witness :
  ∃ stego,
    DocumentSteganography.embed_pdf (b "%PDF-1.7") (b "HELLO") (b "seed")
    = Return stego
    ∧ DocumentSteganography.extract_pdf stego (b "other") = Return (b "HELLO").
Proof.
  apply (@extract_embed_pdf ReferenceDocs.pdflib reference_pdf_laws
           (b "%PDF-1.7") (b "HELLO") (b "seed") (b "other") None).
  reflexivity.
Defined.

Lemma extract_embed_docx_witness :
  ∃ stego,
    DocumentSteganography.embed_docx (b "PKnotes") (b "HELLO") (b "seed")
      {["report.docx" := b "PK"]}
    = (Return stego, {["report.docx" := b "PK"]})
    ∧ DocumentSteganography.extract_docx stego (b "other") ∅
      = (Return (b "HELLO"), ∅).
Proof.
  apply (@extract_embed_docx ReferenceDocs.docxlib reference_docx_laws
           (b "PKnotes") (b "HELLO") (b "seed") (b "other")
           "notes" "48454c4c4f").
  - reflexivity.
  - reflexivity.
  - done.
Defined.

Lemma extract_embed_docx_empty_witness :
  ∃ stego,
    DocumentSteganography.embed_docx (b "PKnotes") [] (b "seed") ∅
    = (Return stego, ∅)
    ∧ DocumentSteganography.extract_docx stego (b "other") ∅
      = (Raise (ValueError "No steganographic payload found in DOCX"),
         <[fresh (dom (∅ : gmap string bytes)) := stego]> ∅).
Proof.
  apply (@extract_embed_docx_empty ReferenceDocs.docxlib reference_docx_laws
           (b "PKnotes") (b "seed") (b "other") "notes" "").
  - reflexivity.
  - reflexivity.
Defined.

(** ** The command line *)

Section cli_dispatch.
Import Cli.

Lemma detect_file_type_values (file_path file_type : string) :
  detect_file_type file_path = Return file_type →
  file_type ∈ ["image"; "audio"; "video"; "pdf"; "docx"].
Proof.
  unfold detect_file_type.
  repeat (case_bool_decide;
          [intros [= <-]; repeat constructor|]).
  done.
Qed.

Lemma detected_type_values_handler (file_type : string) :
  file_type ∈ ["image"; "audio"; "video"; "pdf"; "docx"] →
  get_steganography_handler file_type
  = Return (if decide (file_type = "image") then ImageHandler
            else if decide (file_type = "audio") then AudioHandler
            else if decide (file_type = "video") then VideoHandler
            else DocumentHandler).
Proof.
  intros Hd.
  repeat (apply elem_of_cons in Hd as [->|Hd]; [reflexivity|]).
  by apply elem_of_nil in Hd.
Qed.

(** X20. Every type [detect_file_type] returns is one [get_steganography_handler]
    accepts: detection followed by the handler lookup raises only when
    detection does, and ['pdf'] and ['docx'] share the document handler. *)
Theorem detected_type_has_handler (file_path file_type : string) :
  detect_file_type file_path = Return file_type →
  get_steganography_handler file_type
  = Return (if decide (file_type = "image") then ImageHandler
            else if decide (file_type = "audio") then AudioHandler
            else if decide (file_type = "video") then VideoHandler
            else DocumentHandler).
Proof.
  intros Hd. by apply detected_type_values_handler, (detect_file_type_values
                                                       file_path).
Qed.

End cli_dispatch.

Lemma detected_type_has_handler_witness :
  Cli.detect_file_type "scans/Contract.DOC" = Return "docx"
  ∧ Cli.get_steganography_handler "docx" = Return Cli.DocumentHandler.
Proof.
  split; [reflexivity|].
  apply (detected_type_has_handler "scans/Contract.DOC" "docx"). reflexivity.
Defined.

Section extract_command.
Import Cli.
Context {L : CryptoLib} {A : AudioSteganography.AudioLib}
        {P : DocumentSteganography.PdfLib} {D : DocumentSteganography.DocxLib}
        {FS : FileSystem}.
Context (decode_utf8 : bytes → option string).

(** X21. [extract_command] can complete only for audio and video inputs. For
    every other input path (an image, a PDF or a DOCX, or a name of no known
    type), whatever the files hold, it ends with [sys.exit(1)] and neither
    writes a file nor prints: the image handler's [extract] does not accept
    the third argument, and the document handler's takes the payload size for
    the document type. *)
Theorem extract_command_needs_audio_or_video (args : extract_args)
    (w : world) :
  detect_file_type (extract_input_file args) ≠ Return "audio" →
  detect_file_type (extract_input_file args) ≠ Return "video" →
  extract_command decode_utf8 args w = (SystemExit 1, w).
Proof.
  intros Ha Hv. destruct w as [fs e out].
  unfold extract_command, run_command, st_bind, with_files, lift,
    DocumentSteganography.read_file. cbn [files rng stdout].
  destruct (fs !! extract_input_file args) as [input_data|]; [|done].
  cbn [files rng stdout].
  destruct (fs !! extract_key_file args) as [key|]; [|done].
  cbn [files rng stdout].
  destruct (detect_file_type (extract_input_file args)) as [t|x] eqn:Hd;
    [|done].
  pose proof (detect_file_type_values _ _ Hd) as Ht.
  rewrite (detected_type_values_handler t Ht).
  repeat (apply elem_of_cons in Ht as [->|Ht]); try done.
  by apply elem_of_nil in Ht.
Qed.

End extract_command.

Lemma extract_command_needs_audio_or_video_witness :
  let w := Cli.World {["cover.png" := b "pixels"; "session.key" := b "k"]}
             Reference.counting [] in
  Cli.extract_command (λ m, Some (string_of_list_byte m))
    (Cli.ExtractArgs "cover.png" None "session.key" 1024) w
  = (Cli.SystemExit 1, w).
Proof.
  intros w.
  apply (@extract_command_needs_audio_or_video Reference.lib Reference.audio
           ReferenceDocs.pdflib ReferenceDocs.docxlib ReferenceDocs.filesystem);
    by vm_compute.
Defined.

Section generate_keys.
Import Cli.
Context {L : CryptoLib} {Laws : CryptoLaws L} {FS : FileSystem}.

Lemma append_neq (s t : string) : t ≠ "" → s +:+ t ≠ s.
Proof.
  intros Ht. induction s as [|a s IH]; simpl; [done|].
  intros [= Heq]. by apply IH.
Qed.

Lemma append_pub_nonempty (s : string) : s +:+ ".pub" ≠ "".
Proof. by destruct s. Qed.

(** The two writes of a key pair, when the operating system accepts both
    paths. *)
Lemma write_key_pair (out : string) (keys : bytes * bytes) (w : world) :
  out ≠ "" → can_create out = true → can_create (out +:+ ".pub") = true →
  run_command
    (_ <~ with_files (open_write out keys.1);;
     _ <~ with_files (open_write (out +:+ ".pub") keys.2);;
     st_ret Returned) w
  = (Returned,
     World (<[out +:+ ".pub" := keys.2]> (<[out := keys.1]> (files w)))
           (rng w) (stdout w)).
Proof.
  intros Hne Hc1 Hc2. destruct w as [fs e so].
  unfold run_command, st_bind, with_files, open_write. cbn [files rng stdout].
  rewrite decide_False by done. rewrite Hc1. cbn [files rng stdout].
  rewrite decide_False by apply append_pub_nonempty. by rewrite Hc2.
Qed.

(** X22. [generate-keys --type exchange] with an output path at which, and at
    which with [.pub] appended, the operating system lets a file be created:
    the command returns, prints nothing, and writes a working pair, the
    32-byte private key to the output file and its public key to the [.pub]
    file, a different file, so that a session key wrapped for the contents of
    the [.pub] file is unwrapped with the contents of the other. *)
Theorem generate_exchange_key_files (args : generate_keys_args) (w : world) :
  generate_type args = "exchange" →
  let out := generate_output_file args in
  out ≠ "" → can_create out = true → can_create (out +:+ ".pub") = true →
  ∃ private_key public_key w',
    generate_keys_command args w = (Returned, w')
    ∧ files w' = <[out +:+ ".pub" := public_key]>
                   (<[out := private_key]> (files w))
    ∧ files w' !! out = Some private_key
    ∧ files w' !! (out +:+ ".pub") = Some public_key
    ∧ stdout w' = stdout w
    ∧ length private_key = 32
    ∧ ∀ session_key e,
        ∃ wrapped,
          (KeyManager.wrap_session_key session_key public_key e).1
          = Return wrapped
          ∧ KeyManager.unwrap_session_key wrapped private_key
            = Return session_key.
Proof.
  intros Ht out Hne Hc1 Hc2. destruct w as [fs e so].
  set (priv := map (tape e) (seq (cursor e) 32)).
  assert (Hpriv : length priv = 32)
    by (unfold priv; by rewrite length_map, length_seq).
  exists priv, (X25519_public_key priv). eexists.
  split.
  { unfold generate_keys_command. rewrite Ht.
    rewrite decide_False by done. rewrite decide_True by done.
    exact (write_key_pair out (priv, X25519_public_key priv)
             (World fs (Entropy (tape e) (cursor e + 32)) so) Hne Hc1 Hc2). }
  cbn [files rng stdout fst snd].
  split; [done|]. split.
  { rewrite lookup_insert_ne by (apply append_neq; done).
    by rewrite lookup_insert_eq. }
  split; [by rewrite lookup_insert_eq|].
  split; [done|]. split; [done|].
  intros sk e0.
  destruct (wrap_then_unwrap priv sk e0 Hpriv) as (wrapped & Hw & _ & Hu).
  by exists wrapped.
Qed.

(** X23. [generate-keys --type signing] under the same condition on the two
    paths writes a working pair in the same way: a signature made with the
    contents of the output file verifies under the contents of the [.pub]
    file. *)
Theorem generate_signing_key_files (args : generate_keys_args) (w : world) :
  generate_type args = "signing" →
  let out := generate_output_file args in
  out ≠ "" → can_create out = true → can_create (out +:+ ".pub") = true →
  ∃ private_key public_key w',
    generate_keys_command args w = (Returned, w')
    ∧ files w' = <[out +:+ ".pub" := public_key]>
                   (<[out := private_key]> (files w))
    ∧ files w' !! out = Some private_key
    ∧ files w' !! (out +:+ ".pub") = Some public_key
    ∧ stdout w' = stdout w
    ∧ length private_key = 32
    ∧ ∀ data,
        ∃ signature,
          KeyManager.sign_data data private_key = Return signature
          ∧ KeyManager.verify_signature data signature public_key
            = Return true.
Proof.
  intros Ht out Hne Hc1 Hc2. destruct w as [fs e so].
  set (priv := map (tape e) (seq (cursor e) 32)).
  assert (Hpriv : length priv = 32)
    by (unfold priv; by rewrite length_map, length_seq).
  exists priv, (Ed25519_public_key priv). eexists.
  split.
  { unfold generate_keys_command. rewrite Ht.
    rewrite !decide_False by done. rewrite decide_True by done.
    exact (write_key_pair out (priv, Ed25519_public_key priv)
             (World fs (Entropy (tape e) (cursor e + 32)) so) Hne Hc1 Hc2). }
  cbn [files rng stdout fst snd].
  split; [done|]. split.
  { rewrite lookup_insert_ne by (apply append_neq; done).
    by rewrite lookup_insert_eq. }
  split; [by rewrite lookup_insert_eq|]. split; [done|]. split; [done|].
  intros data. by apply verify_sign_data.
Qed.

(** X26. [generate-keys] with an output path the operating system refuses
    (the empty path, a missing directory, a directory) ends with
    [sys.exit(1)], writes no file and prints nothing, whatever the key type.
    When only the [.pub] path is refused, a key-pair command ends with
    [sys.exit(1)] after the private key has been written: the output file
    holds a 32-byte private key and there is no [.pub] file for it. *)
Theorem generate_keys_refused_path (args : generate_keys_args) (w : world) :
  generate_type args ∈ ["session"; "exchange"; "signing"] →
  let out := generate_output_file args in
  (out = "" ∨ can_create out = false →
   ∃ w', generate_keys_command args w = (SystemExit 1, w')
         ∧ files w' = files w ∧ stdout w' = stdout w)
  ∧ (generate_type args ≠ "session" →
     out ≠ "" → can_create out = true →
     can_create (out +:+ ".pub") = false →
     ∃ private_key w',
       generate_keys_command args w = (SystemExit 1, w')
       ∧ files w' = <[out := private_key]> (files w)
       ∧ length private_key = 32
       ∧ stdout w' = stdout w).
Proof.
  intros Ht out. destruct w as [fs e so].
  assert (Hlen : length (map (tape e) (seq (cursor e) 32)) = 32)
    by (by rewrite length_map, length_seq).
  split.
  - intros Hbad.
    assert (Hw : ∀ data, open_write out data fs
                         = (Raise (FileNotFoundError out), fs)).
    { intros data. unfold open_write.
      destruct Hbad as [-> | Hc]; [done|].
      destruct (decide (out = "")); [done|]. by rewrite Hc. }
    unfold generate_keys_command, run_command, with_rng, with_files,
      KeyManager.generate_session_key, KeyManager.generate_keypair,
      KeyManager.generate_signing_keypair,
      KeyManager.X25519PrivateKey_generate,
      KeyManager.Ed25519PrivateKey_generate, urandom, st_bind, py_ret, st_ret.
    fold out.
    repeat (apply elem_of_cons in Ht as [-> | Ht]);
      [| |
       |by apply elem_of_nil in Ht];
      cbn [decide_rel]; repeat (rewrite decide_False by done);
      rewrite decide_True by done; cbn [files rng stdout fst snd];
      rewrite Hw; by eexists.
  - intros Hns Hne Hc1 Hc2.
    assert (Hw2 : ∀ data fs', open_write (out +:+ ".pub") data fs'
                              = (Raise (FileNotFoundError (out +:+ ".pub")),
                                 fs')).
    { intros data fs'. unfold open_write.
      rewrite decide_False by apply append_pub_nonempty. by rewrite Hc2. }
    assert (Hw1 : ∀ data, open_write out data fs
                          = (Return (), <[out := data]> fs)).
    { intros data. unfold open_write.
      rewrite decide_False by done. by rewrite Hc1. }
    exists (map (tape e) (seq (cursor e) 32)).
    unfold generate_keys_command, run_command, with_rng, with_files,
      KeyManager.generate_session_key, KeyManager.generate_keypair,
      KeyManager.generate_signing_keypair,
      KeyManager.X25519PrivateKey_generate,
      KeyManager.Ed25519PrivateKey_generate, urandom, st_bind, py_ret, st_ret.
    fold out.
    repeat (apply elem_of_cons in Ht as [Ht | Ht]);
      [done| | |by apply elem_of_nil in Ht];
      rewrite Ht; repeat (rewrite decide_False by done);
      rewrite decide_True by done; cbn [files rng stdout fst snd];
      rewrite Hw1; cbn [files rng stdout fst snd]; rewrite Hw2;
      by eexists.
Qed.

End generate_keys.

Lemma generate_exchange_key_files_witness :
  ∃ private_key public_key w',
    Cli.generate_keys_command (Cli.GenerateKeysArgs "exchange" "id")
      (Cli.World ∅ Reference.counting [])
    = (Cli.Returned, w')
    ∧ Cli.files w' = <["id.pub" := public_key]> (<["id" := private_key]> ∅)
    ∧ Cli.files w' !! "id" = Some private_key
    ∧ Cli.files w' !! "id.pub" = Some public_key
    ∧ Cli.stdout w' = []
    ∧ length private_key = 32
    ∧ ∀ session_key e,
        ∃ wrapped,
          (KeyManager.wrap_session_key session_key public_key e).1
          = Return wrapped
          ∧ KeyManager.unwrap_session_key wrapped private_key
            = Return session_key.
Proof.
  apply (@generate_exchange_key_files Reference.lib reference_laws
           ReferenceDocs.filesystem
           (Cli.GenerateKeysArgs "exchange" "id")
           (Cli.World ∅ Reference.counting [])); by vm_compute.
Defined.

Lemma generate_signing_key_files_witness :
  ∃ private_key public_key w',
    Cli.generate_keys_command (Cli.GenerateKeysArgs "signing" "id")
      (Cli.World ∅ Reference.counting [])
    = (Cli.Returned, w')
    ∧ Cli.files w' = <["id.pub" := public_key]> (<["id" := private_key]> ∅)
    ∧ Cli.files w' !! "id" = Some private_key
    ∧ Cli.files w' !! "id.pub" = Some public_key
    ∧ Cli.stdout w' = []
    ∧ length private_key = 32
    ∧ ∀ data,
        ∃ signature,
          KeyManager.sign_data data private_key = Return signature
          ∧ KeyManager.verify_signature data signature public_key
            = Return true.
Proof.
  apply (@generate_signing_key_files Reference.lib reference_laws
           ReferenceDocs.filesystem
           (Cli.GenerateKeysArgs "signing" "id")
           (Cli.World ∅ Reference.counting [])); by vm_compute.
Defined.

(** In the flat directory: the empty path and a path under [keys/] are
    refused, for every key type the parser accepts. *)
Lemma generate_keys_refused_path_witness :
  (∃ w', Cli.generate_keys_command (Cli.GenerateKeysArgs "session" "")
           (Cli.World ∅ Reference.counting [])
         = (Cli.SystemExit 1, w')
         ∧ Cli.files w' = ∅ ∧ Cli.stdout w' = [])
  ∧ (∃ w', Cli.generate_keys_command
             (Cli.GenerateKeysArgs "exchange" "keys/id")
             (Cli.World ∅ Reference.counting [])
           = (Cli.SystemExit 1, w')
           ∧ Cli.files w' = ∅ ∧ Cli.stdout w' = []).
Proof.
  split.
  - apply (proj1 (@generate_keys_refused_path Reference.lib
                    ReferenceDocs.filesystem
                    (Cli.GenerateKeysArgs "session" "")
                    (Cli.World ∅ Reference.counting [])
                    ltac:(repeat constructor))).
    by left.
  - apply (proj1 (@generate_keys_refused_path Reference.lib
                    ReferenceDocs.filesystem
                    (Cli.GenerateKeysArgs "exchange" "keys/id")
                    (Cli.World ∅ Reference.counting [])
                    ltac:(repeat constructor))).
    by right.
Defined.

(** ** File types by extension *)

Section extensions.
Import Cli.

Abbreviation chars := list_ascii_of_string.

Lemma chars_app (s t : string) : chars (s +:+ t) = chars s ++ chars t.
Proof. induction s as [|a s IH]; simpl; [done|]. by rewrite IH. Qed.

Lemma of_chars_app (l k : list ascii) :
  string_of_list_ascii (l ++ k)
  = string_of_list_ascii l +:+ string_of_list_ascii k.
Proof. induction l as [|a l IH]; simpl; [done|]. by rewrite IH. Qed.

Lemma rfind_from_absent (c : ascii) (l : list ascii) (i found : Z) :
  c ∉ l → rfind_from c l i found = found.
Proof.
  revert i found. induction l as [|x l IH]; intros i found Hc; [done|].
  apply not_elem_of_cons in Hc as [Hx Hl]. simpl.
  rewrite decide_False by done. by apply IH.
Qed.

Lemma rfind_from_app_absent (c : ascii) (l k : list ascii) (i found : Z) :
  c ∉ k → rfind_from c (l ++ k) i found = rfind_from c l i found.
Proof.
  revert i found. induction l as [|x l IH]; intros i found Hc; simpl.
  - by apply rfind_from_absent.
  - by apply IH.
Qed.

Lemma rfind_from_last (c : ascii) (l k : list ascii) (i found : Z) :
  c ∉ k →
  rfind_from c (l ++ c :: k) i found = (i + Z.of_nat (length l))%Z.
Proof.
  revert i found. induction l as [|x l IH]; intros i found Hc; simpl.
  - rewrite decide_True by done. rewrite rfind_from_absent by done. lia.
  - rewrite IH by done. lia.
Qed.

Lemma rfind_from_bound (c : ascii) (l : list ascii) (i found : Z) :
  (found < i)%Z → (rfind_from c l i found < i + Z.of_nat (length l))%Z.
Proof.
  revert i found. induction l as [|x l IH]; intros i found Hf; simpl; [lia|].
  destruct (decide (x = c)).
  - pose proof (IH (i + 1)%Z i). lia.
  - pose proof (IH (i + 1)%Z found). lia.
Qed.

(** The index after the last separator of a directory prefix that is empty
    or ends in a slash is its length. *)
Lemma rfind_sep_dir (dir : string) (rest : list ascii) :
  dir = "" ∨ (∃ dir', dir = dir' +:+ "/") →
  "/"%char ∉ rest →
  (rfind "/" (chars dir ++ rest) + 1 = Z.of_nat (length (chars dir)))%Z.
Proof.
  intros Hdir Hrest. unfold rfind. rewrite rfind_from_app_absent by done.
  destruct Hdir as [->|[dir' ->]]; [done|].
  rewrite chars_app. change (chars "/") with ["/"%char].
  rewrite rfind_from_last by apply not_elem_of_nil.
  rewrite length_app. simpl. lia.
Qed.

Lemma splitext_regular (dir stem ext : string) (x : ascii) (stem' : string) :
  dir = "" ∨ (∃ dir', dir = dir' +:+ "/") →
  stem = String x stem' → x ≠ "."%char →
  "/"%char ∉ chars stem → "/"%char ∉ chars ext → "."%char ∉ chars ext →
  splitext (dir +:+ stem +:+ "." +:+ ext) = (dir +:+ stem, "." +:+ ext).
Proof.
  intros Hdir Hstem Hx Hs1 Hs2 Hd. unfold splitext.
  rewrite !chars_app. change (chars ".") with ["."%char].
  set (d := chars dir). set (s := chars stem). set (e := chars ext).
  assert (Hsep : (rfind "/" (d ++ s ++ ["."%char] ++ e) + 1
                  = Z.of_nat (length d))%Z).
  { apply rfind_sep_dir; [done|].
    rewrite !not_elem_of_app. repeat split; try done.
    apply not_elem_of_cons. split; [done|apply not_elem_of_nil]. }
  assert (Hdot : rfind "." (d ++ s ++ ["."%char] ++ e)
                 = Z.of_nat (length d + length s)).
  { unfold rfind. rewrite app_assoc. simpl.
    rewrite rfind_from_last by done. rewrite length_app. lia. }
  rewrite Hdot.
  rewrite decide_True by lia.
  replace (Z.to_nat (rfind "/" (d ++ s ++ ["."%char] ++ e) + 1))
    with (length d) by lia.
  replace (Z.to_nat (Z.of_nat (length d + length s)
                     - (rfind "/" (d ++ s ++ ["."%char] ++ e) + 1)))
    with (length s) by lia.
  rewrite drop_app_length, take_app_length.
  assert (Hnd : forallb (λ ch, bool_decide (ch = "."%char)) s = false).
  { unfold s. rewrite Hstem. simpl. by rewrite bool_decide_eq_false_2. }
  rewrite Hnd, Nat2Z.id.
  rewrite (app_assoc d s), <- (length_app d s).
  rewrite take_app_length, drop_app_length.
  rewrite of_chars_app. unfold d, s, e. simpl.
  by rewrite !string_of_list_ascii_of_string.
Qed.

Lemma lower_cons (c : ascii) (s : string) :
  lower (String c s) = String (lower_char c) (lower s).
Proof. done. Qed.

Lemma lower_char_idemp (c : ascii) : lower_char (lower_char c) = lower_char c.
Proof. by destruct c as [[] [] [] [] [] [] [] []]. Qed.

Lemma lower_idemp (s : string) : lower (lower s) = lower s.
Proof.
  induction s as [|c s IH]; [done|].
  by rewrite !lower_cons, lower_char_idemp, IH.
Qed.

Lemma lower_char_not_sep (c : ascii) :
  c ≠ "/"%char → lower_char c ≠ "/"%char.
Proof. by destruct c as [[] [] [] [] [] [] [] []]. Qed.

Lemma lower_char_not_dot (c : ascii) :
  c ≠ "."%char → lower_char c ≠ "."%char.
Proof. by destruct c as [[] [] [] [] [] [] [] []]. Qed.

Lemma chars_lower (s : string) : chars (lower s) = lower_char <$> chars s.
Proof. unfold lower. by rewrite list_ascii_of_string_of_list_ascii. Qed.

(** X24. The type of a regular file name (a directory prefix, a stem that does
    not begin with a dot, a dot and a last extension without dots or
    slashes) depends only on that last extension, read without regard to
    case: directories, the stem and earlier extensions play no part. *)
Theorem detect_file_type_by_last_extension (dir stem ext : string)
    (x : ascii) (stem' : string) :
  dir = "" ∨ (∃ dir', dir = dir' +:+ "/") →
  stem = String x stem' → x ≠ "."%char →
  "/"%char ∉ chars stem → "/"%char ∉ chars ext → "."%char ∉ chars ext →
  detect_file_type (dir +:+ stem +:+ "." +:+ ext)
  = detect_file_type ("a." +:+ lower ext).
Proof.
  intros Hdir Hstem Hx Hs1 Hs2 Hd. unfold detect_file_type.
  rewrite (splitext_regular dir stem ext x stem') by done.
  change ("a." +:+ lower ext) with ("" +:+ "a" +:+ "." +:+ lower ext).
  rewrite (splitext_regular "" "a" (lower ext) "a" "");
    [|by left|done|done| |rewrite chars_lower..].
  - cbn [snd]. change ("." +:+ lower ext) with (String "." (lower ext)).
    change ("." +:+ ext) with (String "." ext).
    by rewrite !lower_cons, lower_idemp.
  - apply not_elem_of_cons. split; [done|apply not_elem_of_nil].
  - intros (y & Hy & Hin)%list_elem_of_fmap.
    by apply (lower_char_not_sep y); [intros ->|].
  - intros (y & Hy & Hin)%list_elem_of_fmap.
    by apply (lower_char_not_dot y); [intros ->|].
Qed.

Lemma splitext_without_extension (dir dots rest : string) :
  dir = "" ∨ (∃ dir', dir = dir' +:+ "/") →
  Forall (λ c, c = "."%char) (chars dots) →
  "."%char ∉ chars rest → "/"%char ∉ chars rest →
  (splitext (dir +:+ dots +:+ rest)).2 = "".
Proof.
  intros Hdir Hdots Hr1 Hr2. unfold splitext. rewrite !chars_app.
  set (d := chars dir). set (r := chars rest).
  assert (Hnosep : "/"%char ∉ chars dots ++ r).
  { rewrite not_elem_of_app. split; [|done].
    intros Hin. by rewrite Forall_forall in Hdots; apply Hdots in Hin. }
  pose proof (rfind_sep_dir dir (chars dots ++ r) Hdir Hnosep) as Hsep.
  fold d in Hsep.
  destruct (chars dots) as [|c0 l0] eqn:Hl using rev_ind.
  - simpl. clear Hsep.
    assert (Hdot : (rfind "." (d ++ r) ≤ rfind "/" (d ++ r))%Z).
    { unfold rfind.
      rewrite (rfind_from_app_absent "." d r),
        (rfind_from_app_absent "/" d r) by done.
      unfold d. destruct Hdir as [->|[dir' ->]]; [done|].
      rewrite chars_app. change (chars "/") with ["/"%char].
      rewrite (rfind_from_app_absent "." (chars dir') ["/"%char])
        by (apply not_elem_of_cons; split; [done|apply not_elem_of_nil]).
      rewrite rfind_from_last by apply not_elem_of_nil.
      pose proof (rfind_from_bound "." (chars dir') 0 (-1)). lia. }
    by rewrite decide_False by lia.
  - clear IHl0. apply Forall_app in Hdots as [Hl0 Hc0].
    apply Forall_singleton in Hc0 as ->.
    assert (Hdot : rfind "." (d ++ (l0 ++ ["."%char]) ++ r)
                   = Z.of_nat (length d + length l0)).
    { unfold rfind. rewrite <- (app_assoc l0), app_assoc. simpl.
      rewrite rfind_from_last by done. rewrite length_app. lia. }
    rewrite Hdot. rewrite decide_True by lia.
    replace (Z.to_nat (rfind "/" (d ++ (l0 ++ ["."%char]) ++ r) + 1))
      with (length d) by lia.
    replace (Z.to_nat (Z.of_nat (length d + length l0)
                       - (rfind "/" (d ++ (l0 ++ ["."%char]) ++ r) + 1)))
      with (length l0) by lia.
    rewrite drop_app_length, <- (app_assoc l0), take_app_length.
    assert (Hall : forallb (λ ch, bool_decide (ch = "."%char)) l0 = true).
    { apply forallb_forall. intros c Hc. apply bool_decide_eq_true_2.
      rewrite Forall_forall in Hl0. by apply Hl0, list_elem_of_In. }
    by rewrite Hall.
Qed.

(** X25. A name without an extension is refused with an empty extension in the
    message: a last component made of leading dots and a rest without dots
    (a bare name such as [Makefile], a hidden file such as [.png]), also
    when a directory of the path contains dots. *)
Theorem detect_file_type_without_extension (dir dots rest : string) :
  dir = "" ∨ (∃ dir', dir = dir' +:+ "/") →
  Forall (λ c, c = "."%char) (chars dots) →
  "."%char ∉ chars rest → "/"%char ∉ chars rest →
  detect_file_type (dir +:+ dots +:+ rest)
  = Raise (ValueError "Unsupported file type: ").
Proof.
  intros Hdir Hdots Hr1 Hr2. unfold detect_file_type.
  by rewrite splitext_without_extension.
Qed.

End extensions.

Lemma detect_file_type_by_last_extension_witness :
  Cli.detect_file_type "photos.2024/Holiday.final.JPG" = Return "image".
Proof.
  refine (eq_trans (detect_file_type_by_last_extension "photos.2024/"
                      "Holiday.final" "JPG" "H" "oliday.final" _ _ _ _ _ _)
                   _); [| |done| | | |reflexivity]; try done.
  - right. by exists "photos.2024".
  - by vm_compute; intros H%list_elem_of_In; repeat destruct H as [H|H].
  - by vm_compute; intros H%list_elem_of_In; repeat destruct H as [H|H].
  - by vm_compute; intros H%list_elem_of_In; repeat destruct H as [H|H].
Defined.

Lemma detect_file_type_without_extension_witness :
  Cli.detect_file_type "clips.mp4/.png"
  = Raise (ValueError "Unsupported file type: ").
Proof.
  apply (detect_file_type_without_extension "clips.mp4/" "." "png").
  - right. by exists "clips.mp4".
  - by repeat constructor.
  - by vm_compute; intros H%list_elem_of_In; repeat destruct H as [H|H].
  - by vm_compute; intros H%list_elem_of_In; repeat destruct H as [H|H].
Defined.
